(** * Fitness-tracker module ([homework.py]): a shallow embedding

    The module computes distance, mean speed and spent calories for three
    kinds of workout and renders a one-line report.

    Numbers are modelled as Python has them at run time: an [int] is an
    unbounded integer, a [float] is an IEEE 754 binary64 value (Rocq's
    primitive floats), and the operators coerce and raise as CPython's do.
    The field annotations are not enforced by Python, and the script itself
    passes [int]s where [float] is announced, so every field holds either.
    The C library's [pow] is taken to be correctly rounded.

    An instance is its class and its [__dict__]; a method body is a
    computation on [self] that returns a value or raises, and hands back the
    instance as it left it.  The names of instance attributes and of class
    attributes are disjoint in this module, so each lookup goes straight to
    where the name lives.  A [str] is the [string] of its UTF-8 bytes. *)

From Stdlib Require Import ZArith String Ascii List Bool Lia Floats.
From Stdlib Require Import DecimalString.
From stdpp Require Import base strings gmap.

Set Warnings "-inexact-float".

Local Open Scope string_scope.
Local Open Scope Z_scope.

(** ** Exceptions and the result of an evaluation *)

Inductive exn : Type :=
| ValueError (message : string)
| TypeError
| AttributeError (name : string)
| ZeroDivisionError
| OverflowError
| NotImplementedError.

Inductive result (A : Type) : Type :=
| Ok (value : A)
| Raise (e : exn).

Arguments Ok {A} value.
Arguments Raise {A} e.

#[global] Instance result_ret : MRet result := fun A a => Ok a.

#[global] Instance result_bind : MBind result := fun A B k r =>
  match r with
  | Ok a => k a
  | Raise e => Raise e
  end.

(** ** Python numbers *)

Inductive pynum : Type :=
| PyInt (n : Z)
| PyFloat (x : float).

Module PyFloat.

(** [int] to [float]: round to nearest, ties to even; an [int] beyond the
    binary64 range raises [OverflowError] (CPython [PyLong_AsDouble]). *)
Definition of_int (n : Z) : result float :=
  match binary_normalize prec emax n 0 false with
  | S754_infinity _ => Raise OverflowError
  | sf => Ok (SF2Prim sf)
  end.

Definition to_float (v : pynum) : result float :=
  match v with
  | PyInt n => of_int n
  | PyFloat x => Ok x
  end.

(** C truth value of a double: everything but the two zeros. *)
Definition nonzero (x : float) : bool := negb (x =? 0)%float.

Definition copysign_zero (x : float) : float :=
  if get_sign x then neg_zero else zero.

(** C [fmod]: the exact remainder of [x] by [y], with the sign of [x]. *)
Definition fmod (x y : float) : float :=
  match Prim2SF x, Prim2SF y with
  | S754_nan, _ | _, S754_nan => nan
  | S754_infinity _, _ => nan
  | _, S754_zero _ => nan
  | S754_zero _, _ => x
  | S754_finite _ _ _, S754_infinity _ => x
  | S754_finite sx mx ex, S754_finite _ my ey =>
      let e := Z.min ex ey in
      let r := (Z.pos mx * 2 ^ (ex - e)) mod (Z.pos my * 2 ^ (ey - e)) in
      SF2Prim (binary_normalize prec emax (if sx then - r else r) e sx)
  end.

(** C [floor]. *)
Definition floor (x : float) : float :=
  match Prim2SF x with
  | S754_finite s m e =>
      if 0 <=? e then x
      else
        let n := (if s then Z.neg m else Z.pos m) / 2 ^ (- e) in
        SF2Prim (binary_normalize prec emax n 0 false)
  | _ => x
  end.

(** CPython [_float_div_mod], quotient part: the floor division of two
    doubles, [wx] not zero. *)
Definition floor_div (vx wx : float) : float :=
  let md := fmod vx wx in
  let dv := ((vx - md) / wx)%float in
  let dv := if nonzero md && xorb (wx <? 0)%float (md <? 0)%float
            then (dv - 1)%float else dv in
  if nonzero dv then
    let fd := floor dv in
    if (0.5 <? dv - fd)%float then (fd + 1)%float else fd
  else copysign_zero (vx / wx)%float.

(** [x ** n] for an [int] exponent [n >= 0] (CPython [float_pow] over a
    correctly rounded C [pow]): the exact power rounded once; a finite
    base whose power leaves the binary64 range raises [OverflowError]. *)
Definition pow (x : float) (n : N) : result float :=
  if (n =? 0)%N then Ok 1%float
  else
    match Prim2SF x with
    | S754_nan => Ok x
    | S754_infinity _ => Ok (if N.odd n then x else abs x)
    | S754_zero _ => Ok (if N.odd n then x else zero)
    | S754_finite s m e =>
        let b := if s then Z.neg m else Z.pos m in
        match binary_normalize prec emax (b ^ Z.of_N n) (e * Z.of_N n)
                (s && N.odd n) with
        | S754_infinity _ => Raise OverflowError
        | sf => Ok (SF2Prim sf)
        end
    end.

(** [int / int]: the exact quotient rounded once (CPython
    [long_true_divide]), divisor not zero. *)
Definition div_int (a b : Z) : result float :=
  let s := xorb (a <? 0) (b <? 0) in
  if a =? 0 then Ok (if s then neg_zero else zero)
  else
    let '(q, e, l) := SFdiv_core_binary prec emax (Z.abs a) 0 (Z.abs b) 0 in
    match binary_round_aux prec emax s q e l with
    | S754_infinity _ => Raise OverflowError
    | sf => Ok (SF2Prim sf)
    end.

(** Digits of [format(x, '.3f')]: the thousandths nearest to the exact
    value of the double, ties to even. *)
Definition thousandths (m : positive) (e : Z) : Z :=
  let n := Z.pos m * 1000 in
  if 0 <=? e then n * 2 ^ e
  else
    let d := 2 ^ (- e) in
    let q := n / d in
    let r := n mod d in
    match 2 * r ?= d with
    | Lt => q
    | Eq => if Z.even q then q else q + 1
    | Gt => q + 1
    end.

End PyFloat.

(** Binary arithmetic on two Python numbers: both [int], or both coerced to
    [float]. *)
Definition py_arith (fi : Z -> Z -> result pynum)
    (ff : float -> float -> result float) (v w : pynum) : result pynum :=
  match v, w with
  | PyInt a, PyInt b => fi a b
  | _, _ =>
      x ← PyFloat.to_float v;
      y ← PyFloat.to_float w;
      z ← ff x y;
      Ok (PyFloat z)
  end.

Definition py_add : pynum -> pynum -> result pynum :=
  py_arith (fun a b => Ok (PyInt (a + b))) (fun x y => Ok (x + y)%float).

Definition py_sub : pynum -> pynum -> result pynum :=
  py_arith (fun a b => Ok (PyInt (a - b))) (fun x y => Ok (x - y)%float).

Definition py_mul : pynum -> pynum -> result pynum :=
  py_arith (fun a b => Ok (PyInt (a * b))) (fun x y => Ok (x * y)%float).

(** [v / w] *)
Definition py_truediv : pynum -> pynum -> result pynum :=
  py_arith
    (fun a b =>
       if b =? 0 then Raise ZeroDivisionError
       else z ← PyFloat.div_int a b; Ok (PyFloat z))
    (fun x y =>
       if (y =? 0)%float then Raise ZeroDivisionError else Ok (x / y)%float).

(** [v // w] *)
Definition py_floordiv : pynum -> pynum -> result pynum :=
  py_arith
    (fun a b =>
       if b =? 0 then Raise ZeroDivisionError else Ok (PyInt (a / b)))
    (fun x y =>
       if (y =? 0)%float then Raise ZeroDivisionError
       else Ok (PyFloat.floor_div x y)).

(** [v ** n] for an [int] literal [n >= 0]. *)
Definition py_pow (v : pynum) (n : N) : result pynum :=
  match v with
  | PyInt a => Ok (PyInt (a ^ Z.of_N n))
  | PyFloat x => z ← PyFloat.pow x n; Ok (PyFloat z)
  end.

(** ** Formatting with [:.3f] *)

Definition digit (k : Z) : ascii := ascii_of_nat (48 + Z.to_nat k).

Definition decimal (n : Z) : string := NilZero.string_of_uint (N.to_uint (Z.to_N n)).

Definition fraction3 (k : Z) : string :=
  String (digit (k / 100))
    (String (digit (k / 10 mod 10)) (String (digit (k mod 10)) EmptyString)).

Definition fixed3 (s : bool) (n : Z) : string :=
  (if s then "-" else "") ++ decimal (n / 1000) ++ "." ++ fraction3 (n mod 1000).

Definition format_3f_float (x : float) : string :=
  match Prim2SF x with
  | S754_nan => "nan"
  | S754_infinity s => if s then "-inf" else "inf"
  | S754_zero s => fixed3 s 0
  | S754_finite s m e => fixed3 s (PyFloat.thousandths m e)
  end.

(** [format(v, '.3f')]; an [int] is converted to [float] first. *)
Definition py_format_3f (v : pynum) : result string :=
  x ← PyFloat.to_float v; Ok (format_3f_float x).


(** ** Classes and instances *)

Inductive cls : Type := Training | Running | SportsWalking | Swimming.

#[global] Instance cls_eq_dec : EqDecision cls.
Proof. solve_decision. Defined.

(** [cls.__name__] *)
Definition __name__ (c : cls) : string :=
  match c with
  | Training => "Training"
  | Running => "Running"
  | SportsWalking => "SportsWalking"
  | Swimming => "Swimming"
  end.

(** Method resolution order: the class itself, then its base. *)
Definition mro (c : cls) : list cls :=
  match c with
  | Training => [Training]
  | _ => [c; Training]
  end.

(** First definition of an attribute along a list of classes. *)
Fixpoint resolve {A} (own : cls -> option A) (l : list cls) : option A :=
  match l with
  | [] => None
  | c :: l' =>
      match own c with
      | Some a => Some a
      | None => resolve own l'
      end
  end.

(** An instance: its class and its [__dict__]. *)
Record object : Type := Object {
  ob_type : cls;
  ob_dict : gmap string pynum
}.

(** A method body: a computation on [self] that returns or raises, and
    leaves [self] in some state. *)
Definition method (A : Type) : Type := object -> result A * object.

#[global] Instance method_ret : MRet method := fun A a self => (Ok a, self).

#[global] Instance method_bind : MBind method := fun A B k m self =>
  match m self with
  | (Ok a, self') => k a self'
  | (Raise e, self') => (Raise e, self')
  end.

(** The value of an arithmetic expression inside a method. *)
Definition eval {A} (r : result A) : method A := fun self => (r, self).

(** [self.name] for an instance attribute *)
Definition getattr (name : string) : method pynum := fun self =>
  match ob_dict self !! name with
  | Some v => (Ok v, self)
  | None => (Raise (AttributeError name), self)
  end.

(** [self.name = v] *)
Definition setattr (name : string) (v : pynum) : method unit := fun self =>
  (Ok (), Object (ob_type self) (<[name := v]> (ob_dict self))).

(** [type(self)] *)
Definition type_of_self : method cls := fun self => (Ok (ob_type self), self).

(** [self.name] for a class attribute: [own] says which classes define
    it, and the first one along the MRO of [type(self)] wins. *)
Definition class_attr {A} (name : string) (own : cls -> option A) : method A :=
  fun self =>
    match resolve own (mro (ob_type self)) with
    | Some a => (Ok a, self)
    | None => (Raise (AttributeError name), self)
    end.

(** [self.name()] for a method, resolved the same way. *)
Definition invoke {A} (name : string) (own : cls -> option (method A)) : method A :=
  m ← class_attr name own; m.

(** ** InfoMessage *)

Record InfoMessage : Type := {
  training_type : string;
  duration : pynum;
  distance : pynum;
  speed : pynum;
  calories : pynum
}.

Definition get_message (self : InfoMessage) : result string :=
  duration_s ← py_format_3f (duration self);
  distance_s ← py_format_3f (distance self);
  speed_s ← py_format_3f (speed self);
  calories_s ← py_format_3f (calories self);
  Ok ("Тип тренировки: " ++ training_type self ++ "; "
      ++ "Длительность: " ++ duration_s ++ " ч.; "
      ++ "Дистанция: " ++ distance_s ++ " км; "
      ++ "Ср. скорость: " ++ speed_s ++ " км/ч; "
      ++ "Потрачено ккал: " ++ calories_s ++ ".").

(** ** Class constants, by defining class *)

Definition LEN_STEP (c : cls) : option pynum :=
  match c with
  | Training => Some (PyFloat 0.65)
  | Swimming => Some (PyFloat 1.38)
  | _ => None
  end.

Definition M_IN_KM (c : cls) : option pynum :=
  match c with
  | Training => Some (PyInt 1000)
  | _ => None
  end.

Definition M_IN_HOUR (c : cls) : option pynum :=
  match c with
  | Training => Some (PyInt 60)
  | _ => None
  end.

Definition CAL_SPEED_FACTOR (c : cls) : option pynum :=
  match c with
  | Running => Some (PyInt 18)
  | SportsWalking => Some (PyFloat 0.029)
  | Swimming => Some (PyInt 2)
  | Training => None
  end.

Definition CAL_SPEED_SHIFT (c : cls) : option pynum :=
  match c with
  | Running => Some (PyInt 20)
  | Swimming => Some (PyFloat 1.1)
  | _ => None
  end.

Definition CAL_WEIGHT_FACTOR (c : cls) : option pynum :=
  match c with
  | SportsWalking => Some (PyFloat 0.035)
  | _ => None
  end.

(** The exponent is the [int] literal 2. *)
Definition CAL_SPEED_POWER (c : cls) : option N :=
  match c with
  | SportsWalking => Some 2%N
  | _ => None
  end.

(** ** The classes

    A call [self.m()] inside a method body is resolved by the class of
    [self] at run time; the bodies take these late-bound methods as the
    section variables [self_m], and the dispatchers below close the loop. *)

Module Training.
Section Self.
Variables self_get_distance self_get_mean_speed
  self_get_spent_calories : method pynum.

Definition __init__ (args : list pynum) : method unit :=
  match args with
  | [action; duration; weight] =>
      _ ← setattr "action" action;
      _ ← setattr "duration" duration;
      setattr "weight" weight
  | _ => eval (Raise TypeError)
  end.

Definition get_distance : method pynum :=
  action ← getattr "action";
  len_step ← class_attr "LEN_STEP" LEN_STEP;
  distance_in_meters ← eval (py_mul action len_step);
  m_in_km ← class_attr "M_IN_KM" M_IN_KM;
  eval (py_truediv distance_in_meters m_in_km).

Definition get_mean_speed : method pynum :=
  distance ← self_get_distance;
  duration ← getattr "duration";
  eval (py_truediv distance duration).

Definition get_spent_calories : method pynum :=
  eval (Raise NotImplementedError).

Definition show_training_info : method InfoMessage :=
  c ← type_of_self;
  let training_type := __name__ c in
  duration ← getattr "duration";
  distance ← self_get_distance;
  mean_speed ← self_get_mean_speed;
  spent_calories ← self_get_spent_calories;
  mret {| training_type := training_type; duration := duration;
          distance := distance; speed := mean_speed;
          calories := spent_calories |}.
End Self.
End Training.

Module Running.
Section Self.
Variable self_get_mean_speed : method pynum.

Definition get_spent_calories : method pynum :=
  mean_speed ← self_get_mean_speed;
  weight ← getattr "weight";
  duration ← getattr "duration";
  m_in_hour ← class_attr "M_IN_HOUR" M_IN_HOUR;
  duration_in_minutes ← eval (py_mul duration m_in_hour);
  factor ← class_attr "CAL_SPEED_FACTOR" CAL_SPEED_FACTOR;
  a ← eval (py_mul factor mean_speed);
  shift ← class_attr "CAL_SPEED_SHIFT" CAL_SPEED_SHIFT;
  b ← eval (py_sub a shift);
  c ← eval (py_mul b weight);
  m_in_km ← class_attr "M_IN_KM" M_IN_KM;
  d ← eval (py_truediv c m_in_km);
  eval (py_mul d duration_in_minutes).
End Self.
End Running.

Module SportsWalking.
Section Self.
Variable self_get_mean_speed : method pynum.

Definition __init__ (args : list pynum) : method unit :=
  match args with
  | [action; duration; weight; height] =>
      _ ← Training.__init__ [action; duration; weight];
      setattr "height" height
  | _ => eval (Raise TypeError)
  end.

Definition get_spent_calories : method pynum :=
  mean_speed ← self_get_mean_speed;
  weight ← getattr "weight";
  height ← getattr "height";
  duration ← getattr "duration";
  m_in_hour ← class_attr "M_IN_HOUR" M_IN_HOUR;
  duration_in_minutes ← eval (py_mul duration m_in_hour);
  weight_factor ← class_attr "CAL_WEIGHT_FACTOR" CAL_WEIGHT_FACTOR;
  a ← eval (py_mul weight_factor weight);
  power ← class_attr "CAL_SPEED_POWER" CAL_SPEED_POWER;
  b ← eval (py_pow mean_speed power);
  c ← eval (py_floordiv b height);
  speed_factor ← class_attr "CAL_SPEED_FACTOR" CAL_SPEED_FACTOR;
  d ← eval (py_mul c speed_factor);
  e ← eval (py_mul d weight);
  f ← eval (py_add a e);
  eval (py_mul f duration_in_minutes).
End Self.
End SportsWalking.

Module Swimming.
Section Self.
Variable self_get_mean_speed : method pynum.

Definition __init__ (args : list pynum) : method unit :=
  match args with
  | [action; duration; weight; length_pool; count_pool] =>
      _ ← Training.__init__ [action; duration; weight];
      _ ← setattr "length_pool" length_pool;
      setattr "count_pool" count_pool
  | _ => eval (Raise TypeError)
  end.

Definition get_mean_speed : method pynum :=
  length_pool ← getattr "length_pool";
  count_pool ← getattr "count_pool";
  a ← eval (py_mul length_pool count_pool);
  m_in_km ← class_attr "M_IN_KM" M_IN_KM;
  b ← eval (py_truediv a m_in_km);
  duration ← getattr "duration";
  eval (py_truediv b duration).

Definition get_spent_calories : method pynum :=
  mean_speed ← self_get_mean_speed;
  shift ← class_attr "CAL_SPEED_SHIFT" CAL_SPEED_SHIFT;
  a ← eval (py_add mean_speed shift);
  factor ← class_attr "CAL_SPEED_FACTOR" CAL_SPEED_FACTOR;
  b ← eval (py_mul a factor);
  weight ← getattr "weight";
  eval (py_mul b weight).
End Self.
End Swimming.

(** ** Dispatch: which class defines which method *)

Definition get_distance : method pynum :=
  invoke "get_distance" (fun c =>
    match c with
    | Training => Some Training.get_distance
    | _ => None
    end).

Definition get_mean_speed : method pynum :=
  invoke "get_mean_speed" (fun c =>
    match c with
    | Training => Some (Training.get_mean_speed get_distance)
    | Swimming => Some Swimming.get_mean_speed
    | _ => None
    end).

Definition get_spent_calories : method pynum :=
  invoke "get_spent_calories" (fun c =>
    match c with
    | Training => Some Training.get_spent_calories
    | Running => Some (Running.get_spent_calories get_mean_speed)
    | SportsWalking => Some (SportsWalking.get_spent_calories get_mean_speed)
    | Swimming => Some (Swimming.get_spent_calories get_mean_speed)
    end).

Definition show_training_info : method InfoMessage :=
  invoke "show_training_info" (fun c =>
    match c with
    | Training =>
        Some (Training.show_training_info
                get_distance get_mean_speed get_spent_calories)
    | _ => None
    end).

Definition __init__ (c : cls) : option (list pynum -> method unit) :=
  match c with
  | Training => Some Training.__init__
  | Running => None
  | SportsWalking => Some SportsWalking.__init__
  | Swimming => Some Swimming.__init__
  end.

(** Calling the class [c] on the unpacked list [args]: a fresh instance,
    initialised by the [__init__] the class resolves to. *)
Definition new (c : cls) (args : list pynum) : result object :=
  let init := init ← class_attr "__init__" __init__; init args in
  match init (Object c ∅) with
  | (Ok _, self) => Ok self
  | (Raise e, _) => Raise e
  end.

(** ** The factory and the driver *)

Definition WORKOUT_TYPE : gmap string cls :=
  {[ "SWM" := Swimming; "RUN" := Running; "WLK" := SportsWalking ]}.

Definition read_package (workout_type : string) (data : list pynum)
  : result object :=
  match WORKOUT_TYPE !! workout_type with
  | None =>
      let message := "Не допустимое значение workout_type: " ++ workout_type in
      Raise (ValueError message)
  | Some c => new c data
  end.

(** [main] returns the line it prints. *)
Definition main (training : object) : result string :=
  info ← fst (show_training_info training);
  get_message info.

Definition packages : list (string * list pynum) :=
  [ ("SWM", [PyInt 720; PyInt 1; PyInt 80; PyInt 25; PyInt 40]);
    ("RUN", [PyInt 15000; PyInt 1; PyInt 75]);
    ("WLK", [PyInt 9000; PyInt 1; PyInt 75; PyInt 180]) ].

(** The lines the script prints when no package raises. *)
Fixpoint run (ps : list (string * list pynum)) : result (list string) :=
  match ps with
  | [] => Ok []
  | (workout_type, data) :: ps' =>
      training ← read_package workout_type data;
      line ← main training;
      lines ← run ps';
      Ok (line :: lines)
  end.

(** * Vocabulary of the properties *)

(** ** Constructors *)

(** The parameters of the [__init__] a class resolves to, in order. *)
Definition fields (c : cls) : list string :=
  match c with
  | Training | Running => ["action"; "duration"; "weight"]
  | SportsWalking => ["action"; "duration"; "weight"; "height"]
  | Swimming => ["action"; "duration"; "weight"; "length_pool"; "count_pool"]
  end.

(** ** The words of the specification *)

(** The distance-per-unit constant of each kind of workout. *)
Definition unit_constant (c : cls) : float :=
  match c with
  | Swimming => 1.38
  | _ => 0.65
  end.

(** The calories of a walk,
    [(0.035 * weight + quotient(mean_speed ** 2, height) * 0.029 * weight)
     * (duration * 60)], with the quotient operator left open. *)
Definition walking_calories (quotient : pynum -> pynum -> result pynum)
    (mean_speed weight height duration : pynum) : result pynum :=
  a ← py_mul (PyFloat 0.035) weight;
  b ← py_pow mean_speed 2;
  c ← quotient b height;
  d ← py_mul c (PyFloat 0.029);
  e ← py_mul d weight;
  f ← py_add a e;
  minutes ← py_mul duration (PyInt 60);
  py_mul f minutes.

(** The registered codes and the class each one stands for. *)
Definition variant_of (workout_type : string) : option cls :=
  if decide (workout_type = "SWM") then Some Swimming
  else if decide (workout_type = "RUN") then Some Running
  else if decide (workout_type = "WLK") then Some SportsWalking
  else None.

(** ** Predicates on methods and exceptions *)

(** A method is read-only when it leaves [self] as it found it. *)
Definition readonly {A} (m : method A) : Prop :=
  forall self, snd (m self) = self.

(** The exceptions arithmetic can raise. *)
Definition arith_error (e : exn) : Prop :=
  e = ZeroDivisionError \/ e = OverflowError.

(** [m] does not raise [NotImplementedError] on [self]. *)
Definition implemented {A} (m : method A) (self : object) : Prop :=
  fst (m self) <> Raise NotImplementedError.

(** ** Predicates on rendered numbers *)

Definition is_digit (a : ascii) : bool :=
  (48 <=? nat_of_ascii a)%nat && (nat_of_ascii a <=? 57)%nat.

Fixpoint all_digits (s : string) : bool :=
  match s with
  | EmptyString => true
  | String a s' => is_digit a && all_digits s'
  end.

(** Fixed point with three decimals: an optional minus sign, at least one
    digit, the point, exactly three digits. *)
Definition three_decimals (s : string) : Prop :=
  exists sign whole frac,
    s = sign ++ whole ++ "." ++ frac /\
    (sign = "" \/ sign = "-") /\
    (0 < String.length whole)%nat /\ all_digits whole = true /\
    String.length frac = 3%nat /\ all_digits frac = true.

(** A number that [:.3f] renders with digits: an [int] in the binary64
    range, or a [float] that is neither an infinity nor a NaN. *)
Definition finite_number (v : pynum) : Prop :=
  exists x, PyFloat.to_float v = Ok x /\ is_finite x = true.

(** ** The samples of the script *)

Definition swim_sample : list pynum :=
  [PyInt 720; PyInt 1; PyInt 80; PyInt 25; PyInt 40].
Definition run_sample : list pynum := [PyInt 15000; PyInt 1; PyInt 75].
Definition walk_sample : list pynum :=
  [PyInt 9000; PyInt 1; PyInt 75; PyInt 180].

(** The instances the samples build. *)
Definition swim_object : object :=
  Object Swimming (list_to_map (zip (fields Swimming) swim_sample)).
Definition run_object : object :=
  Object Running (list_to_map (zip (fields Running) run_sample)).

(** A direct instance of the base class, on the arguments of the run. *)
Definition base_object : object :=
  Object Training (list_to_map (zip (fields Training) run_sample)).

(** The reports of the swim and of the run. *)
Definition swim_info : InfoMessage :=
  {| training_type := "Swimming"; duration := PyInt 1;
     distance := PyFloat 0.9935999999999999; speed := PyFloat 1;
     calories := PyFloat 336 |}.

Definition run_info : InfoMessage :=
  {| training_type := "Running"; duration := PyInt 1;
     distance := PyFloat 9.75; speed := PyFloat 9.75;
     calories := PyFloat 699.75 |}.

(** ** Vocabulary of the further properties *)

(** A value that is a [float], not an [int]. *)
Definition is_float (v : pynum) : Prop := exists x, v = PyFloat x.

(** A number that is zero: the [int] 0 or a [float] zero of either sign. *)
Definition is_zero_number (v : pynum) : Prop :=
  exists x, PyFloat.to_float v = Ok x /\ (x =? 0)%float = true.

(** The calories of a run,
    [(18 * mean_speed - 20) * weight / 1000 * (duration * 60)]. *)
Definition running_calories (mean_speed weight duration : pynum)
  : result pynum :=
  a ← py_mul (PyInt 18) mean_speed;
  b ← py_sub a (PyInt 20);
  c ← py_mul b weight;
  d ← py_truediv c (PyInt 1000);
  minutes ← py_mul duration (PyInt 60);
  py_mul d minutes.

(** The calories of a swim, [(mean_speed + 1.1) * 2 * weight]. *)
Definition swimming_calories (mean_speed weight : pynum) : result pynum :=
  a ← py_add mean_speed (PyFloat 1.1);
  b ← py_mul a (PyInt 2);
  py_mul b weight.

(** What [show_training_info] assembles from the three computations. *)
Definition report_of (self : object) (duration : pynum) : result InfoMessage :=
  distance ← fst (get_distance self);
  mean_speed ← fst (get_mean_speed self);
  spent_calories ← fst (get_spent_calories self);
  Ok {| training_type := __name__ (ob_type self); duration := duration;
        distance := distance; speed := mean_speed;
        calories := spent_calories |}.

(** A number [:.3f] accepts: a [float], or an [int] in the binary64 range. *)
Definition convertible (v : pynum) : Prop :=
  exists x, PyFloat.to_float v = Ok x.

(** ** The loop of the script, with what it has printed *)

(** One turn of the loop: build the workout of a package and print its
    report. *)
Definition print_package (package : string * list pynum) : result string :=
  training ← read_package package.1 package.2;
  main training.

(** The loop over a list of packages: the lines printed, in order, and
    the exception that ended the script, if one did.  A line printed before
    the exception stays printed. *)
Fixpoint script (ps : list (string * list pynum)) : list string * option exn :=
  match ps with
  | [] => ([], None)
  | package :: ps' =>
      match print_package package with
      | Ok line => let (lines, e) := script ps' in (line :: lines, e)
      | Raise e => ([], Some e)
      end
  end.

(** ** Further samples *)

(** A run of no duration, a walker of no height, a run given in [float]s. *)
Definition still_sample : list pynum := [PyInt 15000; PyInt 0; PyInt 75].
Definition still_object : object :=
  Object Running (list_to_map (zip (fields Running) still_sample)).

Definition flat_sample : list pynum :=
  [PyInt 9000; PyInt 1; PyInt 75; PyInt 0].
Definition flat_object : object :=
  Object SportsWalking (list_to_map (zip (fields SportsWalking) flat_sample)).

Definition float_run_object : object :=
  Object Running (list_to_map (zip (fields Running)
    [PyFloat 15000; PyFloat 1.5; PyFloat 75.5])).

(** * Properties *)

(** ** Methods as computations on [self] *)

Lemma bind_run {A B} (m : method A) (k : A -> method B) (self : object) :
  (m ≫= k) self =
  match m self with
  | (Ok a, self') => k a self'
  | (Raise e, self') => (Raise e, self')
  end.
Proof. reflexivity. Qed.

Lemma resolve_Some {A} (own : cls -> option A) (l : list cls) (a : A) :
  resolve own l = Some a -> exists c, In c l /\ own c = Some a.
Proof.
  induction l as [|c l IH]; simpl; [discriminate|].
  destruct (own c) eqn:E.
  - intros [= ->]. eauto.
  - intros H. destruct (IH H) as (c' & ? & ?). eauto.
Qed.

Create HintDb readonly.

Lemma readonly_ret {A} (a : A) : readonly (mret a).
Proof. intros self. reflexivity. Qed.

Lemma readonly_eval {A} (r : result A) : readonly (eval r).
Proof. intros self. reflexivity. Qed.

Lemma readonly_getattr (name : string) : readonly (getattr name).
Proof. intros self. unfold getattr. destruct (ob_dict self !! name); reflexivity. Qed.

Lemma readonly_type_of_self : readonly type_of_self.
Proof. intros self. reflexivity. Qed.

Lemma readonly_class_attr {A} name (own : cls -> option A) :
  readonly (class_attr name own).
Proof.
  intros self. unfold class_attr.
  destruct (resolve own (mro (ob_type self))); reflexivity.
Qed.

Lemma readonly_bind {A B} (m : method A) (k : A -> method B) :
  readonly m -> (forall a, readonly (k a)) -> readonly (m ≫= k).
Proof.
  intros Hm Hk self. rewrite bind_run.
  specialize (Hm self). destruct (m self) as [[a|e] self1]; simpl in Hm; subst.
  - apply Hk.
  - reflexivity.
Qed.

Lemma readonly_invoke {A} name (own : cls -> option (method A)) :
  (forall c m, own c = Some m -> readonly m) -> readonly (invoke name own).
Proof.
  intros H self. unfold invoke. rewrite bind_run. unfold class_attr.
  destruct (resolve own (mro (ob_type self))) as [m|] eqn:E; [|reflexivity].
  apply resolve_Some in E as (c & _ & E). exact (H c m E self).
Qed.

#[global] Hint Resolve readonly_ret readonly_eval readonly_getattr
  readonly_type_of_self readonly_class_attr : readonly.

Ltac readonly :=
  repeat first [ solve [auto with readonly] | apply readonly_bind; [|intros] ].

Lemma readonly_get_distance : readonly get_distance.
Proof.
  apply readonly_invoke. intros [] m [= <-]. unfold Training.get_distance. readonly.
Qed.

#[global] Hint Resolve readonly_get_distance : readonly.

Lemma readonly_get_mean_speed : readonly get_mean_speed.
Proof.
  apply readonly_invoke. intros [] m [= <-].
  - unfold Training.get_mean_speed. readonly.
  - unfold Swimming.get_mean_speed. readonly.
Qed.

#[global] Hint Resolve readonly_get_mean_speed : readonly.

Lemma readonly_get_spent_calories : readonly get_spent_calories.
Proof.
  apply readonly_invoke. intros [] m [= <-].
  - unfold Training.get_spent_calories. readonly.
  - unfold Running.get_spent_calories. readonly.
  - unfold SportsWalking.get_spent_calories. readonly.
  - unfold Swimming.get_spent_calories. readonly.
Qed.

#[global] Hint Resolve readonly_get_spent_calories : readonly.

Lemma readonly_show_training_info : readonly show_training_info.
Proof.
  apply readonly_invoke. intros [] m [= <-].
  unfold Training.show_training_info. readonly.
Qed.

#[global] Hint Resolve readonly_show_training_info : readonly.

Lemma readonly_run {A} (m : method A) (self : object) :
  readonly m -> m self = (fst (m self), self).
Proof. intros H. rewrite <- (H self) at 3. apply surjective_pairing. Qed.

(** C9: every query method leaves the instance exactly as it was, so a
    second call of [get_spent_calories] or of [show_training_info] on the
    same instance returns (or raises) what the first one did. *)
Theorem methods_do_not_mutate (self : object) :
  snd (get_distance self) = self /\
  snd (get_mean_speed self) = self /\
  snd (get_spent_calories self) = self /\
  snd (show_training_info self) = self /\
  fst (get_spent_calories (snd (get_spent_calories self)))
    = fst (get_spent_calories self) /\
  fst (show_training_info (snd (show_training_info self)))
    = fst (show_training_info self).
Proof.
  repeat split.
  - apply readonly_get_distance.
  - apply readonly_get_mean_speed.
  - apply readonly_get_spent_calories.
  - apply readonly_show_training_info.
  - now rewrite readonly_get_spent_calories.
  - now rewrite readonly_show_training_info.
Qed.

(** ** Construction *)

(** Construction succeeds exactly on an argument list of the right length,
    and binds the arguments to the fields by position. *)
Lemma new_spec (c : cls) (args : list pynum) :
  new c args =
  if Nat.eqb (length args) (length (fields c))
  then Ok (Object c (list_to_map (zip (fields c) args)))
  else Raise TypeError.
Proof.
  destruct c; destruct args as [|a [|d [|w [|x [|y [|z l]]]]]];
    vm_compute; reflexivity.
Qed.

Lemma new_Ok (c : cls) (args : list pynum) (self : object) :
  new c args = Ok self ->
  length args = length (fields c) /\
  self = Object c (list_to_map (zip (fields c) args)).
Proof.
  rewrite new_spec. destruct (Nat.eqb_spec (length args) (length (fields c))).
  - intros [= <-]. auto.
  - discriminate.
Qed.

(** The instance has the class it was made from, and its [i]-th field
    holds the [i]-th argument. *)
Lemma new_attrs (c : cls) (args : list pynum) (self : object) :
  new c args = Ok self ->
  ob_type self = c /\
  length args = length (fields c) /\
  forall (i : nat) (name : string),
    fields c !! i = Some name -> ob_dict self !! name = args !! i.
Proof.
  intros H. apply new_Ok in H as [Hlen ->].
  split; [reflexivity|]. split; [exact Hlen|].
  intros i name.
  destruct c; destruct args as [|a [|d [|w [|x [|y [|z l]]]]]];
    try discriminate Hlen;
    destruct i as [|[|[|[|[|i]]]]]; intros [= <-]; vm_compute; reflexivity.
Qed.

(** ** Running a method body on a given instance *)

Ltac unfold_methods :=
  unfold show_training_info, get_spent_calories, get_mean_speed, get_distance,
    invoke, Training.show_training_info, Training.get_spent_calories,
    Training.get_mean_speed, Training.get_distance,
    Running.get_spent_calories, SportsWalking.get_spent_calories,
    Swimming.get_spent_calories, Swimming.get_mean_speed,
    class_attr, type_of_self, getattr, eval, mbind, method_bind, mret,
    method_ret.

Ltac simpl_run :=
  cbn -[py_mul py_truediv py_add py_sub py_floordiv py_pow] in *.

(** One step: read an attribute whose value is known, or split on the
    outcome of the arithmetic operation that is evaluated next. *)
Ltac run_step :=
  match goal with
  | H : ?m !! ?k = Some _ |- context [?m !! ?k] => rewrite H
  | |- context [match ?r with Ok _ => _ | Raise _ => _ end] =>
      destruct r eqn:?
  end; simpl_run.

Ltac run_method := unfold_methods; simpl_run; repeat run_step.

(** ** Distance *)

(** C4: for an instance of any class, [get_distance()] is
    [action * unit / 1000], with [unit] 0.65 for Running and SportsWalking
    (and the base class) and 1.38 for Swimming; [action] is the first
    constructor argument. *)
Theorem get_distance_formula (c : cls) (args : list pynum) (self : object) :
  new c args = Ok self ->
  exists action,
    head args = Some action /\
    getattr "action" self = (Ok action, self) /\
    fst (get_distance self) =
      (distance_in_meters ← py_mul action (PyFloat (unit_constant c));
       py_truediv distance_in_meters (PyInt 1000)).
Proof.
  intros H. apply new_attrs in H as (Hc & Hlen & Hat).
  destruct self as [c' m]; simpl in *; subst c'.
  assert (Ha : m !! "action" = args !! 0%nat)
    by (apply Hat; destruct c; reflexivity).
  destruct args as [|action args]; [destruct c; discriminate Hlen|].
  exists action. simpl in Ha.
  split; [reflexivity|]. split.
  - unfold getattr; simpl. now rewrite Ha.
  - destruct c; run_method; reflexivity.
Qed.

Lemma new_run_sample : new Running run_sample = Ok run_object.
Proof. vm_compute. reflexivity. Qed.


Lemma new_swim_sample : new Swimming swim_sample = Ok swim_object.
Proof. vm_compute. reflexivity. Qed.

Lemma get_distance_formula_witness :
  new Swimming swim_sample = Ok swim_object /\
  fst (get_distance swim_object) = Ok (PyFloat 0.9935999999999999).
Proof.
  split; [exact new_swim_sample|].
  destruct (get_distance_formula Swimming swim_sample swim_object new_swim_sample)
    as (action & Hhd & _ & ->).
  injection Hhd as <-. vm_compute. reflexivity.
Defined.

(** ** Mean speed *)

Lemma invoke_run {A} name (own : cls -> option (method A)) self m :
  resolve own (mro (ob_type self)) = Some m -> invoke name own self = m self.
Proof. intros H. unfold invoke, class_attr. rewrite bind_run, H. reflexivity. Qed.

Lemma getattr_run (name : string) (self : object) (v : pynum) :
  ob_dict self !! name = Some v -> getattr name self = (Ok v, self).
Proof. unfold getattr. now intros ->. Qed.

(** The outcome of a sequence whose first part is read-only. *)
Lemma bind_readonly {A B} (m : method A) (k : A -> method B) self :
  readonly m ->
  fst ((m ≫= k) self) = (a ← fst (m self); fst (k a self)).
Proof.
  intros H. rewrite bind_run, (readonly_run m self H).
  destruct (fst (m self)); reflexivity.
Qed.

(** The base formula, used by every class but Swimming. *)
Lemma get_mean_speed_base (self : object) (duration : pynum) :
  ob_type self <> Swimming ->
  ob_dict self !! "duration" = Some duration ->
  fst (get_mean_speed self) =
    (distance ← fst (get_distance self); py_truediv distance duration).
Proof.
  intros Hc Hd.
  assert (Hrun : get_mean_speed self
                 = Training.get_mean_speed get_distance self).
  { apply invoke_run. destruct self as [[] m]; simpl in *; congruence. }
  rewrite Hrun. unfold Training.get_mean_speed.
  rewrite bind_readonly by readonly.
  destruct (fst (get_distance self)) as [distance|e]; [|reflexivity].
  simpl. rewrite bind_run, (getattr_run _ _ _ Hd). reflexivity.
Qed.

Lemma swimming_get_mean_speed (self : object)
    (duration length_pool count_pool : pynum) :
  ob_type self = Swimming ->
  ob_dict self !! "duration" = Some duration ->
  ob_dict self !! "length_pool" = Some length_pool ->
  ob_dict self !! "count_pool" = Some count_pool ->
  fst (get_mean_speed self) =
    (a ← py_mul length_pool count_pool;
     b ← py_truediv a (PyInt 1000);
     py_truediv b duration).
Proof.
  intros Hc Hd Hl Hn. destruct self as [c m]; simpl in *; subst c.
  run_method; reflexivity.
Qed.

(** C3: for a Swimming instance, [get_mean_speed()] is
    [length_pool * count_pool / 1000 / duration]; an instance that differs
    only in [action] has the same mean speed. *)
Theorem swimming_mean_speed_formula (args : list pynum) (self : object) :
  new Swimming args = Ok self ->
  exists action duration weight length_pool count_pool,
    args = [action; duration; weight; length_pool; count_pool] /\
    fst (get_mean_speed self) =
      (a ← py_mul length_pool count_pool;
       b ← py_truediv a (PyInt 1000);
       py_truediv b duration) /\
    forall (action' : pynum) (self' : object),
      new Swimming [action'; duration; weight; length_pool; count_pool]
        = Ok self' ->
      fst (get_mean_speed self') = fst (get_mean_speed self).
Proof.
  intros H. pose proof H as (Hc & Hlen & Hat)%new_attrs.
  destruct args as [|a [|d [|w [|l [|n [|z args]]]]]]; try discriminate Hlen.
  exists a, d, w, l, n. split; [reflexivity|].
  assert (Hspeed : forall a' s',
    new Swimming [a'; d; w; l; n] = Ok s' ->
    fst (get_mean_speed s') =
      (a ← py_mul l n; b ← py_truediv a (PyInt 1000); py_truediv b d)).
  { intros a' s' (Hc' & _ & Hat')%new_attrs.
    apply swimming_get_mean_speed; [exact Hc'|..].
    - exact (Hat' 1%nat "duration" eq_refl).
    - exact (Hat' 3%nat "length_pool" eq_refl).
    - exact (Hat' 4%nat "count_pool" eq_refl). }
  split.
  - exact (Hspeed a self H).
  - intros a' s' H'. now rewrite (Hspeed a' s' H'), (Hspeed a self H).
Qed.

Lemma swimming_mean_speed_formula_witness :
  new Swimming swim_sample = Ok swim_object /\
  fst (get_mean_speed swim_object) = Ok (PyFloat 1) /\
  fst (get_mean_speed
         (Object Swimming
            (list_to_map (zip (fields Swimming)
               [PyInt 5; PyInt 1; PyInt 80; PyInt 25; PyInt 40]))))
    = fst (get_mean_speed swim_object).
Proof.
  split; [exact new_swim_sample|].
  destruct (swimming_mean_speed_formula swim_sample swim_object new_swim_sample)
    as (a & d & w & l & n & Hargs & Hspeed & Hindep).
  injection Hargs as <- <- <- <- <-.
  split.
  - rewrite Hspeed. vm_compute. reflexivity.
  - apply (Hindep (PyInt 5)). vm_compute. reflexivity.
Defined.

(** ** Calories of a walk *)

(** Minutes from hours: the product with the [int] 60 never raises. *)
Lemma minutes_total (duration : pynum) :
  exists minutes, py_mul duration (PyInt 60) = Ok minutes.
Proof. destruct duration; eexists; vm_compute; reflexivity. Qed.

Lemma walking_get_spent_calories (self : object)
    (duration weight height : pynum) :
  ob_type self = SportsWalking ->
  ob_dict self !! "duration" = Some duration ->
  ob_dict self !! "weight" = Some weight ->
  ob_dict self !! "height" = Some height ->
  fst (get_spent_calories self) =
    (mean_speed ← fst (get_mean_speed self);
     walking_calories py_floordiv mean_speed weight height duration).
Proof.
  intros Hc Hd Hw Hh.
  destruct (minutes_total duration) as [minutes Hm].
  assert (Hrun : get_spent_calories self
                 = SportsWalking.get_spent_calories get_mean_speed self).
  { apply invoke_run. rewrite Hc. reflexivity. }
  rewrite Hrun. unfold SportsWalking.get_spent_calories, walking_calories.
  rewrite bind_readonly by readonly.
  destruct (fst (get_mean_speed self)) as [mean_speed|e]; [|reflexivity].
  destruct self as [c m]; simpl in Hc, Hd, Hw, Hh; subst c.
  unfold class_attr, getattr, eval, mbind, method_bind, result_bind.
  simpl_run; repeat (rewrite ?Hm; run_step); reflexivity.
Qed.



(** ** The report *)

(** What a report holds, whenever [show_training_info] returns one. *)
Lemma show_training_info_Ok (self : object) (info : InfoMessage) :
  fst (show_training_info self) = Ok info ->
  training_type info = __name__ (ob_type self) /\
  ob_dict self !! "duration" = Some (duration info) /\
  fst (get_distance self) = Ok (distance info) /\
  fst (get_mean_speed self) = Ok (speed info) /\
  fst (get_spent_calories self) = Ok (calories info).
Proof.
  assert (Hrun : show_training_info self
                 = Training.show_training_info
                     get_distance get_mean_speed get_spent_calories self).
  { apply invoke_run. destruct self as [[] m]; reflexivity. }
  rewrite Hrun. unfold Training.show_training_info.
  rewrite bind_readonly by readonly. simpl.
  rewrite bind_readonly by readonly. unfold getattr at 1.
  destruct (ob_dict self !! "duration") as [d|]; [simpl|discriminate].
  rewrite bind_readonly by readonly.
  destruct (fst (get_distance self)) as [x|]; [simpl|discriminate].
  rewrite bind_readonly by readonly.
  destruct (fst (get_mean_speed self)) as [v|]; [simpl|discriminate].
  rewrite bind_readonly by readonly.
  destruct (fst (get_spent_calories self)) as [k|]; [simpl|discriminate].
  intros [= <-]. auto.
Qed.

Lemma training_get_spent_calories (self : object) :
  ob_type self = Training ->
  get_spent_calories self = (Raise NotImplementedError, self).
Proof.
  intros Hc. unfold get_spent_calories.
  rewrite (invoke_run _ _ _ Training.get_spent_calories); [reflexivity|].
  rewrite Hc. reflexivity.
Qed.

(** C5: the report built for an instance carries the name of the
    instance's own class, one of Running, SportsWalking and Swimming and
    never that of the base class, and its calories are those of that class's
    own [get_spent_calories]. *)
Theorem report_of_own_class (c : cls) (args : list pynum) (self : object)
    (info : InfoMessage) :
  new c args = Ok self ->
  fst (show_training_info self) = Ok info ->
  training_type info = __name__ c /\
  In (training_type info) ["Running"; "SportsWalking"; "Swimming"] /\
  String.eqb (training_type info) "Training" = false /\
  Ok (calories info) =
    match c with
    | Training => fst (Training.get_spent_calories self)
    | Running => fst (Running.get_spent_calories get_mean_speed self)
    | SportsWalking =>
        fst (SportsWalking.get_spent_calories get_mean_speed self)
    | Swimming => fst (Swimming.get_spent_calories get_mean_speed self)
    end.
Proof.
  intros (Hc & _)%new_attrs (Hname & _ & _ & _ & Hcal)%show_training_info_Ok.
  rewrite Hname, Hc. destruct c.
  - rewrite training_get_spent_calories in Hcal by exact Hc. discriminate.
  - repeat split; [simpl; auto|]. rewrite <- Hcal.
    unfold get_spent_calories. erewrite invoke_run; [reflexivity|].
    rewrite Hc. reflexivity.
  - repeat split; [simpl; auto|]. rewrite <- Hcal.
    unfold get_spent_calories. erewrite invoke_run; [reflexivity|].
    rewrite Hc. reflexivity.
  - repeat split; [simpl; auto|]. rewrite <- Hcal.
    unfold get_spent_calories. erewrite invoke_run; [reflexivity|].
    rewrite Hc. reflexivity.
Qed.

Lemma show_swim_sample : fst (show_training_info swim_object) = Ok swim_info.
Proof. vm_compute. reflexivity. Qed.

Lemma report_of_own_class_witness :
  new Swimming swim_sample = Ok swim_object /\
  fst (show_training_info swim_object) = Ok swim_info /\
  training_type swim_info = "Swimming" /\
  Ok (calories swim_info) =
    fst (Swimming.get_spent_calories get_mean_speed swim_object).
Proof.
  split; [exact new_swim_sample|]. split; [exact show_swim_sample|].
  destruct (report_of_own_class Swimming swim_sample swim_object swim_info
              new_swim_sample show_swim_sample) as (Hname & _ & _ & Hcal).
  split; [exact Hname | exact Hcal].
Defined.

(** ** The factory *)

Lemma WORKOUT_TYPE_lookup (workout_type : string) :
  WORKOUT_TYPE !! workout_type = variant_of workout_type.
Proof.
  unfold WORKOUT_TYPE, variant_of.
  repeat case_decide; simplify_map_eq; reflexivity.
Qed.

Lemma variant_of_Some (workout_type : string) (c : cls) :
  variant_of workout_type = Some c ->
  In c [Swimming; Running; SportsWalking] /\
  In workout_type ["SWM"; "RUN"; "WLK"].
Proof.
  unfold variant_of. repeat case_decide; intros [= <-]; subst; simpl; auto.
Qed.

Lemma variant_of_None (workout_type : string) :
  variant_of workout_type = None <-> ~ In workout_type ["SWM"; "RUN"; "WLK"].
Proof.
  unfold variant_of. simpl. repeat case_decide; subst; split; intros Hin;
    try discriminate; try reflexivity; intuition congruence.
Qed.

Lemma read_package_Ok (workout_type : string) (data : list pynum)
    (self : object) :
  read_package workout_type data = Ok self ->
  exists c, variant_of workout_type = Some c /\ new c data = Ok self.
Proof.
  unfold read_package. rewrite WORKOUT_TYPE_lookup.
  destruct (variant_of workout_type) as [c|]; [eauto | discriminate].
Qed.

(** ** Exceptions of the arithmetic *)

Lemma of_int_error (n : Z) (e : exn) :
  PyFloat.of_int n = Raise e -> arith_error e.
Proof.
  unfold PyFloat.of_int, arith_error.
  destruct (binary_normalize _ _ _ _ _); intros [= <-]; auto.
Qed.

Lemma to_float_error (v : pynum) (e : exn) :
  PyFloat.to_float v = Raise e -> arith_error e.
Proof. destruct v; simpl; [apply of_int_error | discriminate]. Qed.

Lemma py_arith_error fi ff (v w : pynum) (e : exn) :
  (forall a b e, fi a b = Raise e -> arith_error e) ->
  (forall x y e, ff x y = Raise e -> arith_error e) ->
  py_arith fi ff v w = Raise e -> arith_error e.
Proof.
  intros Hi Hf. unfold py_arith.
  assert (Hfloat :
    (x ← PyFloat.to_float v; y ← PyFloat.to_float w; z ← ff x y;
     Ok (PyFloat z)) = Raise e -> arith_error e).
  { destruct (PyFloat.to_float v) as [x|e1] eqn:Ev; simpl.
    - destruct (PyFloat.to_float w) as [y|e2] eqn:Ew; simpl.
      + destruct (ff x y) as [z|e3] eqn:Ez; simpl; [discriminate|].
        intros [= <-]. eauto.
      + intros [= <-]. eapply to_float_error, Ew.
    - intros [= <-]. eapply to_float_error, Ev. }
  destruct v, w; auto. apply Hi.
Qed.

Lemma py_add_error v w e : py_add v w = Raise e -> arith_error e.
Proof. apply py_arith_error; discriminate. Qed.

Lemma py_sub_error v w e : py_sub v w = Raise e -> arith_error e.
Proof. apply py_arith_error; discriminate. Qed.

Lemma py_mul_error v w e : py_mul v w = Raise e -> arith_error e.
Proof. apply py_arith_error; discriminate. Qed.

Lemma div_int_error a b e : PyFloat.div_int a b = Raise e -> arith_error e.
Proof.
  unfold PyFloat.div_int, arith_error. destruct (a =? 0); [discriminate|].
  destruct (SFdiv_core_binary _ _ _ _ _ _) as [[q e'] l].
  destruct (binary_round_aux _ _ _ _ _ _); intros [= <-]; auto.
Qed.

Lemma py_truediv_error v w e : py_truediv v w = Raise e -> arith_error e.
Proof.
  apply py_arith_error.
  - intros a b e'. destruct (b =? 0).
    + intros [= <-]. left. reflexivity.
    + destruct (PyFloat.div_int a b) eqn:E; simpl; [discriminate|].
      intros [= <-]. eapply div_int_error, E.
  - intros x y e'. destruct (y =? 0)%float; [|discriminate].
    intros [= <-]. left. reflexivity.
Qed.

Lemma py_floordiv_error v w e : py_floordiv v w = Raise e -> arith_error e.
Proof.
  apply py_arith_error.
  - intros a b e'. destruct (b =? 0); [|discriminate].
    intros [= <-]. left. reflexivity.
  - intros x y e'. destruct (y =? 0)%float; [|discriminate].
    intros [= <-]. left. reflexivity.
Qed.

Lemma py_pow_error v n e : py_pow v n = Raise e -> arith_error e.
Proof.
  destruct v as [a|x]; simpl; [discriminate|].
  unfold PyFloat.pow, arith_error. destruct (n =? 0)%N; [discriminate|].
  destruct (Prim2SF x); simpl; try discriminate.
  destruct (binary_normalize _ _ _ _ _); simpl; intros [= <-]; auto.
Qed.

(** ** Where [NotImplementedError] can come from *)

Create HintDb implemented.

Lemma implemented_bind {A B} (m : method A) (k : A -> method B) self :
  readonly m -> implemented m self -> (forall a, implemented (k a) self) ->
  implemented (m ≫= k) self.
Proof.
  unfold implemented. intros Hr Hm Hk. rewrite bind_readonly by exact Hr.
  destruct (fst (m self)) as [a|e]; simpl; [apply Hk|].
  intros [= ->]. now apply Hm.
Qed.

Lemma implemented_ret {A} (a : A) self : implemented (mret a) self.
Proof. discriminate. Qed.

Lemma implemented_getattr name self : implemented (getattr name) self.
Proof.
  unfold implemented, getattr. destruct (ob_dict self !! name); discriminate.
Qed.

Lemma implemented_type_of_self self : implemented type_of_self self.
Proof. discriminate. Qed.

Lemma implemented_class_attr {A} name (own : cls -> option A) self :
  implemented (class_attr name own) self.
Proof.
  unfold implemented, class_attr.
  destruct (resolve own (mro (ob_type self))); discriminate.
Qed.

Lemma implemented_eval {A} (r : result A) self :
  (forall e, r = Raise e -> arith_error e) -> implemented (eval r) self.
Proof. intros H E. destruct (H _ E); discriminate. Qed.

Lemma implemented_invoke {A} name (own : cls -> option (method A)) self m :
  resolve own (mro (ob_type self)) = Some m ->
  implemented m self -> implemented (invoke name own) self.
Proof. intros H Hm. unfold implemented. now rewrite (invoke_run _ _ _ _ H). Qed.

#[global] Hint Resolve implemented_ret implemented_getattr
  implemented_type_of_self implemented_class_attr : implemented.
#[global] Hint Resolve py_add_error py_sub_error py_mul_error
  py_truediv_error py_floordiv_error py_pow_error : implemented.

Ltac implemented :=
  repeat first
    [ solve [eauto with implemented]
    | apply implemented_eval; intro
    | apply implemented_bind; [readonly | | intros] ].

Lemma implemented_get_distance self : implemented get_distance self.
Proof.
  apply (implemented_invoke _ _ _ Training.get_distance).
  - destruct self as [[] m]; reflexivity.
  - unfold Training.get_distance. implemented.
Qed.

#[global] Hint Resolve implemented_get_distance : implemented.

Lemma implemented_get_mean_speed self : implemented get_mean_speed self.
Proof.
  destruct (decide (ob_type self = Swimming)) as [Hc|Hc].
  - apply (implemented_invoke _ _ _ Swimming.get_mean_speed).
    + rewrite Hc. reflexivity.
    + unfold Swimming.get_mean_speed. implemented.
  - apply (implemented_invoke _ _ _ (Training.get_mean_speed get_distance)).
    + destruct self as [[] m]; simpl in *; congruence.
    + unfold Training.get_mean_speed. implemented.
Qed.

#[global] Hint Resolve implemented_get_mean_speed : implemented.

Lemma implemented_get_spent_calories self :
  ob_type self <> Training -> implemented get_spent_calories self.
Proof.
  intros Hc. destruct self as [[] m]; simpl in Hc; [congruence | | |].
  - apply (implemented_invoke _ _ _ (Running.get_spent_calories get_mean_speed));
      [reflexivity|].
    unfold Running.get_spent_calories. implemented.
  - apply (implemented_invoke _ _ _
             (SportsWalking.get_spent_calories get_mean_speed));
      [reflexivity|].
    unfold SportsWalking.get_spent_calories. implemented.
  - apply (implemented_invoke _ _ _
             (Swimming.get_spent_calories get_mean_speed));
      [reflexivity|].
    unfold Swimming.get_spent_calories. implemented.
Qed.

Lemma implemented_show_training_info self :
  ob_type self <> Training -> implemented show_training_info self.
Proof.
  intros Hc.
  apply (implemented_invoke _ _ _
           (Training.show_training_info
              get_distance get_mean_speed get_spent_calories)).
  - destruct self as [[] m]; reflexivity.
  - pose proof (implemented_get_spent_calories self Hc).
    unfold Training.show_training_info. implemented.
Qed.

(** C8: [get_spent_calories()] on a direct instance of [Training] raises
    [NotImplementedError]; an instance that comes out of [read_package] is
    a Swimming, a Running or a SportsWalking, and neither its
    [get_spent_calories()] nor its [show_training_info()] raises it. *)
Theorem not_implemented_only_on_base :
  (forall (args : list pynum) (self : object),
     new Training args = Ok self ->
     fst (get_spent_calories self) = Raise NotImplementedError) /\
  (forall (workout_type : string) (data : list pynum) (self : object),
     read_package workout_type data = Ok self ->
     In (ob_type self) [Swimming; Running; SportsWalking] /\
     fst (get_spent_calories self) <> Raise NotImplementedError /\
     fst (show_training_info self) <> Raise NotImplementedError).
Proof.
  split.
  - intros args self (Hc & _)%new_attrs.
    now rewrite training_get_spent_calories.
  - intros workout_type data self (c & Hv & Hnew)%read_package_Ok.
    apply variant_of_Some in Hv as [Hv _]. apply new_attrs in Hnew as [Hc _].
    assert (Hbase : ob_type self <> Training).
    { rewrite Hc. simpl in Hv. intuition congruence. }
    rewrite Hc. split; [exact Hv|]. split.
    + apply implemented_get_spent_calories, Hbase.
    + apply implemented_show_training_info, Hbase.
Qed.

Lemma not_implemented_only_on_base_witness :
  new Training run_sample = Ok base_object /\
  fst (get_spent_calories base_object) = Raise NotImplementedError /\
  read_package "RUN" run_sample = Ok run_object /\
  fst (get_spent_calories run_object) <> Raise NotImplementedError.
Proof.
  assert (Hbase : new Training run_sample = Ok base_object)
    by (vm_compute; reflexivity).
  assert (Hrun : read_package "RUN" run_sample = Ok run_object)
    by (vm_compute; reflexivity).
  split; [exact Hbase|]. split.
  - exact (proj1 not_implemented_only_on_base run_sample base_object Hbase).
  - split; [exact Hrun|].
    exact (proj1 (proj2 (proj2 not_implemented_only_on_base "RUN" run_sample
                           run_object Hrun))).
Defined.

(** C6, as the code has it: an unregistered code raises [ValueError] with
    the code at the end of the message, and nothing else does; a registered
    code builds its class from the argument list, field by field in order,
    when the list has as many items as the class has fields, and raises
    [TypeError] otherwise. *)
Theorem read_package_spec (workout_type : string) (data : list pynum) :
  read_package workout_type data =
    match variant_of workout_type with
    | None =>
        Raise (ValueError
                 ("Не допустимое значение workout_type: " ++ workout_type))
    | Some c =>
        if Nat.eqb (length data) (length (fields c))
        then Ok (Object c (list_to_map (zip (fields c) data)))
        else Raise TypeError
    end /\
  ((exists message, read_package workout_type data = Raise (ValueError message))
   <-> ~ In workout_type ["SWM"; "RUN"; "WLK"]) /\
  (forall self : object,
     read_package workout_type data = Ok self ->
     variant_of workout_type = Some (ob_type self) /\
     forall (i : nat) (name : string),
       fields (ob_type self) !! i = Some name ->
       ob_dict self !! name = data !! i).
Proof.
  assert (Hrun : read_package workout_type data =
    match variant_of workout_type with
    | None =>
        Raise (ValueError
                 ("Не допустимое значение workout_type: " ++ workout_type))
    | Some c =>
        if Nat.eqb (length data) (length (fields c))
        then Ok (Object c (list_to_map (zip (fields c) data)))
        else Raise TypeError
    end).
  { unfold read_package. rewrite WORKOUT_TYPE_lookup.
    destruct (variant_of workout_type); [apply new_spec | reflexivity]. }
  split; [exact Hrun|]. split.
  - rewrite <- variant_of_None, Hrun.
    destruct (variant_of workout_type) as [c|]; split.
    + intros [message H]. destruct (Nat.eqb _ _); discriminate.
    + discriminate.
    + reflexivity.
    + eauto.
  - intros self (c & Hv & Hnew)%read_package_Ok.
    apply new_attrs in Hnew as (Hc & _ & Hat). rewrite Hc. auto.
Qed.

Lemma read_package_spec_witness :
  (exists self,
     read_package "SWM" swim_sample = Ok self /\
     ob_type self = Swimming /\
     ob_dict self !! "length_pool" = Some (PyInt 25) /\
     ob_dict self !! "count_pool" = Some (PyInt 40)) /\
  read_package "XYZ" swim_sample =
    Raise (ValueError "Не допустимое значение workout_type: XYZ").
Proof.
  split.
  - exists swim_object.
    assert (H : read_package "SWM" swim_sample = Ok swim_object)
      by (vm_compute; reflexivity).
    destruct (proj2 (proj2 (read_package_spec "SWM" swim_sample))
                swim_object H) as [_ Hat].
    split; [exact H|]. split; [reflexivity|]. split.
    + exact (Hat 3%nat "length_pool" eq_refl).
    + exact (Hat 4%nat "count_pool" eq_refl).
  - exact (proj1 (read_package_spec "XYZ" swim_sample)).
Defined.

(** C6 as stated fails: a registered code with a list of the wrong length
    raises too. *)
Lemma read_package_raises_on_registered_code :
  variant_of "RUN" = Some Running /\
  read_package "RUN" [PyInt 15000; PyInt 1] = Raise TypeError.
Proof. split; vm_compute; reflexivity. Qed.

(** ** Rendering *)

Lemma digit_is_digit (k : Z) : 0 <= k <= 9 -> is_digit (digit k) = true.
Proof.
  intros H.
  assert (Hk : k = 0 \/ k = 1 \/ k = 2 \/ k = 3 \/ k = 4 \/ k = 5 \/ k = 6
               \/ k = 7 \/ k = 8 \/ k = 9) by lia.
  repeat destruct Hk as [->|Hk]; try subst k; reflexivity.
Qed.

Lemma string_of_uint_digits (d : Decimal.uint) :
  all_digits (NilEmpty.string_of_uint d) = true.
Proof. induction d; simpl; auto. Qed.

Lemma decimal_digits (n : Z) :
  (0 < String.length (decimal n))%nat /\ all_digits (decimal n) = true.
Proof.
  unfold decimal, NilZero.string_of_uint.
  pose proof (string_of_uint_digits (N.to_uint (Z.to_N n))) as H.
  destruct (N.to_uint (Z.to_N n)); simpl in *; split; auto; lia.
Qed.

Lemma fraction3_digits (k : Z) :
  0 <= k < 1000 ->
  String.length (fraction3 k) = 3%nat /\ all_digits (fraction3 k) = true.
Proof.
  intros H. split; [reflexivity|]. unfold fraction3. cbn [all_digits].
  rewrite !digit_is_digit; [reflexivity|..].
  - pose proof (Z.mod_pos_bound k 10). lia.
  - pose proof (Z.mod_pos_bound (k / 10) 10). lia.
  - assert (k / 100 < 10) by (apply Z.div_lt_upper_bound; lia).
    assert (0 <= k / 100) by (apply Z.div_pos; lia). lia.
Qed.

Lemma fixed3_three_decimals (s : bool) (n : Z) : three_decimals (fixed3 s n).
Proof.
  exists (if s then "-" else ""), (decimal (n / 1000)), (fraction3 (n mod 1000)).
  destruct (decimal_digits (n / 1000)) as [Hlen Hdig].
  destruct (fraction3_digits (n mod 1000)) as [Hlen' Hdig'].
  { apply Z.mod_pos_bound. lia. }
  repeat split; auto. destruct s; auto.
Qed.

(** A finite double is a zero or a signed mantissa with an exponent. *)
Lemma finite_Prim2SF (x : float) :
  is_finite x = true ->
  (exists s, Prim2SF x = S754_zero s) \/
  (exists s m e, Prim2SF x = S754_finite s m e).
Proof.
  unfold is_finite, Prim2SF.
  destruct (is_nan x); [discriminate|].
  destruct (is_zero x); [eauto|].
  destruct (is_infinity x); [discriminate|]. intros _.
  destruct (FloatOps.Z.frexp x) as [r ex].
  destruct (shr_fexp _ _ _ _ _) as [shr e'].
  destruct (shr_m shr); eauto.
Qed.

Lemma format_3f_finite (v : pynum) :
  finite_number v ->
  exists s, py_format_3f v = Ok s /\ three_decimals s.
Proof.
  intros (x & Hx & Hfin). unfold py_format_3f. rewrite Hx. simpl.
  eexists. split; [reflexivity|]. unfold format_3f_float.
  destruct (finite_Prim2SF x Hfin) as [[s ->]|(s & m & e & ->)];
    apply fixed3_three_decimals.
Qed.

(** C7, as the code has it: for a report whose four numbers are finite,
    [get_message()] is the template
    [Тип тренировки: {training_type}; Длительность: {duration:.3f} ч.;
     Дистанция: {distance:.3f} км; Ср. скорость: {speed:.3f} км/ч;
     Потрачено ккал: {calories:.3f}.], each number in fixed point with
    exactly three decimals. *)
Theorem get_message_template (info : InfoMessage) :
  finite_number (duration info) ->
  finite_number (distance info) ->
  finite_number (speed info) ->
  finite_number (calories info) ->
  exists duration_s distance_s speed_s calories_s,
    py_format_3f (duration info) = Ok duration_s /\
    py_format_3f (distance info) = Ok distance_s /\
    py_format_3f (speed info) = Ok speed_s /\
    py_format_3f (calories info) = Ok calories_s /\
    three_decimals duration_s /\ three_decimals distance_s /\
    three_decimals speed_s /\ three_decimals calories_s /\
    get_message info =
      Ok ("Тип тренировки: " ++ training_type info
          ++ "; Длительность: " ++ duration_s
          ++ " ч.; Дистанция: " ++ distance_s
          ++ " км; Ср. скорость: " ++ speed_s
          ++ " км/ч; Потрачено ккал: " ++ calories_s ++ ".").
Proof.
  intros (d & Hd & Hd3)%format_3f_finite (s & Hs & Hs3)%format_3f_finite
         (v & Hv & Hv3)%format_3f_finite (c & Hc & Hc3)%format_3f_finite.
  exists d, s, v, c. repeat (split; [assumption|]).
  unfold get_message. rewrite Hd, Hs, Hv, Hc. reflexivity.
Qed.

Lemma finite_number_eval (v : pynum) (x : float) :
  PyFloat.to_float v = Ok x -> is_finite x = true -> finite_number v.
Proof. intros H1 H2. exists x. auto. Qed.

Lemma get_message_template_witness :
  get_message run_info =
    Ok "Тип тренировки: Running; Длительность: 1.000 ч.; Дистанция: 9.750 км; Ср. скорость: 9.750 км/ч; Потрачено ккал: 699.750.".
Proof.
  destruct (get_message_template run_info) as
    (d & s & v & c & Hd & Hs & Hv & Hc & _ & _ & _ & _ & ->).
  - apply (finite_number_eval _ 1); reflexivity.
  - apply (finite_number_eval _ 9.75); reflexivity.
  - apply (finite_number_eval _ 9.75); reflexivity.
  - apply (finite_number_eval _ 699.75); reflexivity.
  - vm_compute in Hd, Hs, Hv, Hc.
    injection Hd as <-. injection Hs as <-. injection Hv as <-.
    injection Hc as <-. reflexivity.
Defined.

(** C7 as stated fails: the text of the template is Russian, not the
    English of the spec; and a number that is not finite is rendered as
    [inf], without decimals. *)
Lemma get_message_not_spec_template :
  get_message run_info =
    Ok "Тип тренировки: Running; Длительность: 1.000 ч.; Дистанция: 9.750 км; Ср. скорость: 9.750 км/ч; Потрачено ккал: 699.750." /\
  String.eqb
    "Тип тренировки: Running; Длительность: 1.000 ч.; Дистанция: 9.750 км; Ср. скорость: 9.750 км/ч; Потрачено ккал: 699.750."
    "Training type: Running; Duration: 1.000 h.; Distance: 9.750 km; Avg speed: 9.750 km/h; Calories burned: 699.750."
    = false /\
  get_message {| training_type := "Running"; duration := PyInt 1;
                 distance := PyFloat 9.75; speed := PyFloat 9.75;
                 calories := PyFloat infinity |} =
    Ok "Тип тренировки: Running; Длительность: 1.000 ч.; Дистанция: 9.750 км; Ср. скорость: 9.750 км/ч; Потрачено ккал: inf.".
Proof. repeat split; vm_compute; reflexivity. Qed.

(** ** The script's samples *)

(** C1, as the code has it: the package [("RUN", [15000, 1, 75])] builds a
    Running instance with distance 9.75 km and mean speed 9.75 km/h; its
    calories are [(18 * 9.75 - 20) * 75 / 1000 * 60], which is 699.75, and
    the printed line shows 9.750, 9.750 and 699.750. *)
Theorem running_sample_report :
  read_package "RUN" run_sample = Ok run_object /\
  ob_type run_object = Running /\
  fst (get_distance run_object) = Ok (PyFloat 9.75) /\
  fst (get_mean_speed run_object) = Ok (PyFloat 9.75) /\
  fst (get_spent_calories run_object) = Ok (PyFloat 699.75) /\
  (a ← py_mul (PyInt 18) (PyFloat 9.75);
   b ← py_sub a (PyInt 20);
   c ← py_mul b (PyInt 75);
   d ← py_truediv c (PyInt 1000);
   py_mul d (PyInt 60)) = Ok (PyFloat 699.75) /\
  main run_object =
    Ok "Тип тренировки: Running; Длительность: 1.000 ч.; Дистанция: 9.750 км; Ср. скорость: 9.750 км/ч; Потрачено ккал: 699.750.".
Proof. repeat split; vm_compute; reflexivity. Qed.

(** C1 as stated fails: the calories of the sample run are 699.75, more
    than 23 away from the 676.575 of the spec, and print as 699.750. *)
Lemma running_sample_calories_not_676 :
  fst (get_spent_calories run_object) = Ok (PyFloat 699.75) /\
  (23 <? abs (699.75 - 676.575))%float = true /\
  py_format_3f (PyFloat 699.75) = Ok "699.750" /\
  String.eqb "699.750" "676.575" = false.
Proof. repeat split; vm_compute; reflexivity. Qed.

(** C10: for the script's swim, one hour long, [get_distance()] is
    [720 * 1.38 / 1000], about 0.9936 km, while [get_mean_speed()] is
    [25 * 40 / 1000 / 1], 1 km/h: the distance is not the mean speed times
    the duration. *)
Theorem swimming_distance_and_speed_disagree :
  exists (args : list pynum) (self : object) (duration : Z) (d v vd : float),
    new Swimming args = Ok self /\
    ob_dict self !! "duration" = Some (PyInt duration) /\ 0 < duration /\
    fst (get_distance self) = Ok (PyFloat d) /\
    fst (get_mean_speed self) = Ok (PyFloat v) /\
    py_mul (PyFloat v) (PyInt duration) = Ok (PyFloat vd) /\
    (d =? vd)%float = false /\
    (0.006 <? abs (vd - d))%float = true.
Proof.
  exists swim_sample, swim_object, 1, 0.9935999999999999%float, 1%float,
    1%float.
  split; [exact new_swim_sample|]. split; [vm_compute; reflexivity|].
  split; [lia|]. repeat split; vm_compute; reflexivity.
Qed.

(** The whole script: the three lines it prints. *)
Lemma script_output :
  packages = [("SWM", swim_sample); ("RUN", run_sample); ("WLK", walk_sample)] /\
  run packages =
    Ok ["Тип тренировки: Swimming; Длительность: 1.000 ч.; Дистанция: 0.994 км; Ср. скорость: 1.000 км/ч; Потрачено ккал: 336.000.";
        "Тип тренировки: Running; Длительность: 1.000 ч.; Дистанция: 9.750 км; Ср. скорость: 9.750 км/ч; Потрачено ккал: 699.750.";
        "Тип тренировки: SportsWalking; Длительность: 1.000 ч.; Дистанция: 5.850 км; Ср. скорость: 5.850 км/ч; Потрачено ккал: 157.500."].
Proof. split; vm_compute; reflexivity. Qed.

(** Floor division takes the floor of the exact quotient of the two
    doubles, which the rounded quotient can overshoot: [1.0 // 0.1] is 9
    although [1.0 / 0.1] rounds to 10. *)
Remark floor_div_of_exact_quotient :
  py_floordiv (PyFloat 1) (PyFloat 0.1) = Ok (PyFloat 9) /\
  py_truediv (PyFloat 1) (PyFloat 0.1) = Ok (PyFloat 10).
Proof. split; vm_compute; reflexivity. Qed.

(** * Further properties *)

(** ** Arithmetic with a [float] operand *)

Lemma py_arith_float_l fi ff (x : float) (w : pynum) :
  py_arith fi ff (PyFloat x) w =
    (y ← PyFloat.to_float w; z ← ff x y; Ok (PyFloat z)).
Proof. destruct w; reflexivity. Qed.

Lemma py_arith_float_r fi ff (v : pynum) (y : float) :
  py_arith fi ff v (PyFloat y) =
    (x ← PyFloat.to_float v; z ← ff x y; Ok (PyFloat z)).
Proof.
  destruct v as [n|x]; [|reflexivity]. unfold py_arith.
  destruct (PyFloat.to_float (PyInt n)); reflexivity.
Qed.

Lemma py_mul_float_r (v : pynum) (y : float) :
  py_mul v (PyFloat y) = (x ← PyFloat.to_float v; Ok (PyFloat (x * y))).
Proof.
  unfold py_mul. rewrite py_arith_float_r.
  destruct (PyFloat.to_float v); reflexivity.
Qed.

Lemma py_truediv_float_l (x : float) (w : pynum) :
  py_truediv (PyFloat x) w =
    (y ← PyFloat.to_float w;
     if (y =? 0)%float then Raise ZeroDivisionError else Ok (PyFloat (x / y))).
Proof.
  unfold py_truediv. rewrite py_arith_float_l.
  destruct (PyFloat.to_float w) as [y|]; [simpl|reflexivity].
  destruct (y =? 0)%float; reflexivity.
Qed.

Lemma py_floordiv_float_l (x : float) (w : pynum) :
  py_floordiv (PyFloat x) w =
    (y ← PyFloat.to_float w;
     if (y =? 0)%float then Raise ZeroDivisionError
     else Ok (PyFloat (PyFloat.floor_div x y))).
Proof.
  unfold py_floordiv. rewrite py_arith_float_l.
  destruct (PyFloat.to_float w) as [y|]; [simpl|reflexivity].
  destruct (y =? 0)%float; reflexivity.
Qed.

Lemma to_float_1000 : PyFloat.to_float (PyInt 1000) = Ok 1000%float.
Proof. vm_compute. reflexivity. Qed.

(** The outcome of an operation on a [float] and anything is a [float]. *)
Lemma py_arith_is_float fi ff (v w r : pynum) :
  is_float v \/ is_float w -> py_arith fi ff v w = Ok r -> is_float r.
Proof.
  intros [[x ->]|[y ->]].
  - rewrite py_arith_float_l.
    destruct (PyFloat.to_float w) as [y|]; [simpl|discriminate].
    destruct (ff x y) as [z|]; [simpl|discriminate].
    intros [= <-]. eexists. reflexivity.
  - rewrite py_arith_float_r.
    destruct (PyFloat.to_float v) as [x|]; [simpl|discriminate].
    destruct (ff x y) as [z|]; [simpl|discriminate].
    intros [= <-]. eexists. reflexivity.
Qed.

(** True division gives a [float] whatever its operands. *)
Lemma py_truediv_is_float (v w r : pynum) : py_truediv v w = Ok r -> is_float r.
Proof.
  destruct v as [a|x], w as [b|y];
    try (apply py_arith_is_float; (left + right); eexists; reflexivity).
  unfold py_truediv, py_arith. destruct (b =? 0); [discriminate|].
  destruct (PyFloat.div_int a b) as [z|]; [simpl|discriminate].
  intros [= <-]. eexists. reflexivity.
Qed.

(** ** The methods of a given instance, as arithmetic *)

Lemma get_distance_run (self : object) (action : pynum) :
  ob_dict self !! "action" = Some action ->
  fst (get_distance self) =
    (a ← PyFloat.to_float action;
     Ok (PyFloat (a * unit_constant (ob_type self) / 1000))).
Proof.
  intros Ha. destruct self as [c m]; simpl in Ha.
  assert (Hrun : fst (get_distance (Object c m)) =
    (distance_in_meters ← py_mul action (PyFloat (unit_constant c));
     py_truediv distance_in_meters (PyInt 1000))).
  { destruct c; run_method; reflexivity. }
  rewrite Hrun, py_mul_float_r. simpl ob_type.
  destruct (PyFloat.to_float action) as [a|]; [|reflexivity].
  unfold mbind, result_bind.
  rewrite py_truediv_float_l, to_float_1000. reflexivity.
Qed.

Lemma running_get_spent_calories (self : object) (duration weight : pynum) :
  ob_type self = Running ->
  ob_dict self !! "duration" = Some duration ->
  ob_dict self !! "weight" = Some weight ->
  fst (get_spent_calories self) =
    (mean_speed ← fst (get_mean_speed self);
     running_calories mean_speed weight duration).
Proof.
  intros Hc Hd Hw.
  destruct (minutes_total duration) as [minutes Hm].
  assert (Hrun : get_spent_calories self
                 = Running.get_spent_calories get_mean_speed self).
  { apply invoke_run. rewrite Hc. reflexivity. }
  rewrite Hrun. unfold Running.get_spent_calories, running_calories.
  rewrite bind_readonly by readonly.
  destruct (fst (get_mean_speed self)) as [mean_speed|e]; [|reflexivity].
  destruct self as [c m]; simpl in Hc, Hd, Hw; subst c.
  unfold class_attr, getattr, eval, mbind, method_bind, result_bind.
  simpl_run; repeat (rewrite ?Hm; run_step); reflexivity.
Qed.

Lemma swimming_get_spent_calories (self : object) (weight : pynum) :
  ob_type self = Swimming ->
  ob_dict self !! "weight" = Some weight ->
  fst (get_spent_calories self) =
    (mean_speed ← fst (get_mean_speed self);
     swimming_calories mean_speed weight).
Proof.
  intros Hc Hw.
  assert (Hrun : get_spent_calories self
                 = Swimming.get_spent_calories get_mean_speed self).
  { apply invoke_run. rewrite Hc. reflexivity. }
  rewrite Hrun. unfold Swimming.get_spent_calories, swimming_calories.
  rewrite bind_readonly by readonly.
  destruct (fst (get_mean_speed self)) as [mean_speed|e]; [|reflexivity].
  destruct self as [c m]; simpl in Hc, Hw; subst c.
  unfold class_attr, getattr, eval, mbind, method_bind, result_bind.
  simpl_run; repeat run_step; reflexivity.
Qed.

Lemma show_training_info_run (self : object) (duration : pynum) :
  ob_dict self !! "duration" = Some duration ->
  fst (show_training_info self) = report_of self duration.
Proof.
  intros Hd.
  assert (Hrun : show_training_info self
                 = Training.show_training_info
                     get_distance get_mean_speed get_spent_calories self).
  { apply invoke_run. destruct self as [[] m]; reflexivity. }
  rewrite Hrun. unfold Training.show_training_info, report_of.
  rewrite bind_readonly by readonly. simpl.
  rewrite bind_readonly by readonly. rewrite (getattr_run _ _ _ Hd). simpl.
  rewrite bind_readonly by readonly.
  destruct (fst (get_distance self)) as [x|]; [simpl|reflexivity].
  rewrite bind_readonly by readonly.
  destruct (fst (get_mean_speed self)) as [v|]; [simpl|reflexivity].
  rewrite bind_readonly by readonly.
  destruct (fst (get_spent_calories self)) as [k|]; reflexivity.
Qed.

(** ** Distance and mean speed in IEEE arithmetic *)

(** X1: [get_distance()] converts [action] to a [float] [a] and returns the
    double [a * unit / 1000]; it fails only on the conversion, with
    [OverflowError], and never for an [action] that is already a [float]. *)
Theorem get_distance_closed_form (c : cls) (args : list pynum) (self : object) :
  new c args = Ok self ->
  exists action,
    args !! 0%nat = Some action /\
    fst (get_distance self) =
      (a ← PyFloat.to_float action;
       Ok (PyFloat (a * unit_constant c / 1000))) /\
    (forall e, fst (get_distance self) = Raise e ->
       e = OverflowError /\ PyFloat.to_float action = Raise OverflowError) /\
    (forall x, action = PyFloat x ->
       fst (get_distance self) = Ok (PyFloat (x * unit_constant c / 1000))).
Proof.
  intros (Hc & Hlen & Hat)%new_attrs.
  assert (Ha : ob_dict self !! "action" = args !! 0%nat)
    by (apply Hat; destruct c; reflexivity).
  destruct args as [|action args]; [destruct c; discriminate Hlen|].
  exists action. simpl in Ha. split; [reflexivity|].
  rewrite (get_distance_run self action Ha), Hc.
  split; [reflexivity|]. split.
  - intros e. destruct action as [n|x]; simpl; [|discriminate].
    unfold PyFloat.of_int.
    destruct (binary_normalize _ _ _ _ _); simpl; try discriminate.
    intros [= <-]. auto.
  - intros x ->. reflexivity.
Qed.

Lemma get_distance_closed_form_witness :
  new Swimming swim_sample = Ok swim_object /\
  fst (get_distance swim_object) = Ok (PyFloat (720 * 1.38 / 1000)).
Proof.
  split; [exact new_swim_sample|].
  destruct (get_distance_closed_form Swimming swim_sample swim_object
              new_swim_sample) as (action & Ha & -> & _).
  injection Ha as <-. vm_compute. reflexivity.
Defined.

(** X2: for every class but Swimming, [get_mean_speed()] is the double
    [action * unit / 1000 / duration] on the converted fields; a zero
    duration raises [ZeroDivisionError], and nothing else fails but the two
    conversions. *)
Theorem get_mean_speed_closed_form (c : cls) (args : list pynum)
    (self : object) :
  new c args = Ok self ->
  c <> Swimming ->
  exists action duration,
    args !! 0%nat = Some action /\ args !! 1%nat = Some duration /\
    fst (get_mean_speed self) =
      (a ← PyFloat.to_float action;
       d ← PyFloat.to_float duration;
       if (d =? 0)%float then Raise ZeroDivisionError
       else Ok (PyFloat (a * unit_constant c / 1000 / d))).
Proof.
  intros (Hc & Hlen & Hat)%new_attrs Hswim.
  assert (Ha : ob_dict self !! "action" = args !! 0%nat)
    by (apply Hat; destruct c; reflexivity).
  assert (Hd : ob_dict self !! "duration" = args !! 1%nat)
    by (apply Hat; destruct c; reflexivity).
  destruct args as [|action [|duration args]];
    try (destruct c; discriminate Hlen).
  exists action, duration. simpl in Ha, Hd. do 2 (split; [reflexivity|]).
  rewrite (get_mean_speed_base self duration) by congruence.
  rewrite (get_distance_run self action Ha), Hc.
  destruct (PyFloat.to_float action) as [a|]; [|reflexivity].
  unfold mbind at 1 2 3. unfold result_bind at 1 2.
  rewrite py_truediv_float_l. reflexivity.
Qed.

Lemma new_still_sample : new Running still_sample = Ok still_object.
Proof. vm_compute. reflexivity. Qed.

Lemma get_mean_speed_closed_form_witness :
  new Running still_sample = Ok still_object /\
  fst (get_mean_speed still_object) = Raise ZeroDivisionError.
Proof.
  split; [exact new_still_sample|].
  destruct (get_mean_speed_closed_form Running still_sample still_object
              new_still_sample) as (a & d & Ha & Hd & ->); [discriminate|].
  injection Ha as <-. injection Hd as <-. vm_compute. reflexivity.
Defined.

(** ** Calories of a run and of a swim *)

(** X3: for a Running instance, [get_spent_calories()] is
    [(18 * mean_speed - 20) * weight / 1000 * (duration * 60)] on the
    instance's own mean speed, weight and duration. *)
Theorem running_calories_formula (args : list pynum) (self : object) :
  new Running args = Ok self ->
  exists action duration weight,
    args = [action; duration; weight] /\
    fst (get_spent_calories self) =
      (mean_speed ← fst (get_mean_speed self);
       running_calories mean_speed weight duration).
Proof.
  intros H. pose proof H as (Hc & Hlen & Hat)%new_attrs.
  destruct args as [|a [|d [|w [|z args]]]]; try discriminate Hlen.
  exists a, d, w. split; [reflexivity|].
  apply running_get_spent_calories; [exact Hc|..].
  - exact (Hat 1%nat "duration" eq_refl).
  - exact (Hat 2%nat "weight" eq_refl).
Qed.

Lemma running_calories_formula_witness :
  new Running run_sample = Ok run_object /\
  fst (get_spent_calories run_object) =
    running_calories (PyFloat 9.75) (PyInt 75) (PyInt 1).
Proof.
  split; [exact new_run_sample|].
  destruct (running_calories_formula run_sample run_object new_run_sample)
    as (a & d & w & Hargs & ->).
  injection Hargs as <- <- <-. vm_compute. reflexivity.
Defined.

(** X4: for a Swimming instance, [get_spent_calories()] is
    [(mean_speed + 1.1) * 2 * weight] on the instance's own mean speed,
    the one computed from the pool. *)
Theorem swimming_calories_formula (args : list pynum) (self : object) :
  new Swimming args = Ok self ->
  exists action duration weight length_pool count_pool,
    args = [action; duration; weight; length_pool; count_pool] /\
    fst (get_spent_calories self) =
      (a ← py_mul length_pool count_pool;
       b ← py_truediv a (PyInt 1000);
       mean_speed ← py_truediv b duration;
       swimming_calories mean_speed weight).
Proof.
  intros H. pose proof H as (Hc & Hlen & Hat)%new_attrs.
  destruct args as [|a [|d [|w [|l [|n [|z args]]]]]]; try discriminate Hlen.
  exists a, d, w, l, n. split; [reflexivity|].
  rewrite (swimming_get_spent_calories self w Hc (Hat 2%nat "weight" eq_refl)).
  rewrite (swimming_get_mean_speed self d l n Hc
             (Hat 1%nat "duration" eq_refl)
             (Hat 3%nat "length_pool" eq_refl)
             (Hat 4%nat "count_pool" eq_refl)).
  destruct (py_mul l n) as [p|]; [simpl|reflexivity].
  destruct (py_truediv p (PyInt 1000)); reflexivity.
Qed.

Lemma swimming_calories_formula_witness :
  new Swimming swim_sample = Ok swim_object /\
  fst (get_spent_calories swim_object) = Ok (PyFloat 336).
Proof.
  split; [exact new_swim_sample|].
  destruct (swimming_calories_formula swim_sample swim_object new_swim_sample)
    as (a & d & w & l & n & Hargs & ->).
  injection Hargs as <- <- <- <- <-. vm_compute. reflexivity.
Defined.

(** ** Sequences of arithmetic steps *)

Lemma bind_Ok_inv {A B} (r : result A) (k : A -> result B) (v : B)
    (P : Prop) :
  (forall a, r = Ok a -> k a = Ok v -> P) -> (a ← r; k a) = Ok v -> P.
Proof. destruct r as [a|e]; [eauto | discriminate]. Qed.

Lemma bind_Raise_inv {A B} (r : result A) (k : A -> result B) (e : exn)
    (P : Prop) :
  (r = Raise e -> P) -> (forall a, r = Ok a -> k a = Raise e -> P) ->
  (a ← r; k a) = Raise e -> P.
Proof. destruct r as [a|e']; simpl; [eauto|]. intros H _ [= ->]. auto. Qed.

Ltac is_float_step :=
  first
    [ eapply py_truediv_is_float; eassumption
    | eapply py_arith_is_float; [|eassumption]; (left + right);
      first [ eexists; reflexivity | eassumption ] ].

(** ** What the methods return *)

Lemma running_calories_is_float mean_speed weight duration v :
  running_calories mean_speed weight duration = Ok v -> is_float v.
Proof.
  unfold running_calories.
  apply bind_Ok_inv; intros a _. apply bind_Ok_inv; intros b _.
  apply bind_Ok_inv; intros c _. apply bind_Ok_inv; intros d Hd.
  apply bind_Ok_inv; intros minutes _. intros Hv.
  assert (is_float d) by is_float_step. is_float_step.
Qed.

Lemma walking_calories_is_float mean_speed weight height duration v :
  walking_calories py_floordiv mean_speed weight height duration = Ok v ->
  is_float v.
Proof.
  unfold walking_calories.
  apply bind_Ok_inv; intros a Ha. apply bind_Ok_inv; intros b _.
  apply bind_Ok_inv; intros c _. apply bind_Ok_inv; intros d _.
  apply bind_Ok_inv; intros e _. apply bind_Ok_inv; intros f Hf.
  apply bind_Ok_inv; intros minutes _. intros Hv.
  assert (is_float a) by is_float_step.
  assert (is_float f) by is_float_step. is_float_step.
Qed.

Lemma swimming_calories_is_float mean_speed weight v :
  swimming_calories mean_speed weight = Ok v -> is_float v.
Proof.
  unfold swimming_calories.
  apply bind_Ok_inv; intros a Ha. apply bind_Ok_inv; intros b Hb. intros Hv.
  assert (is_float a) by is_float_step.
  assert (is_float b) by is_float_step. is_float_step.
Qed.

(** The fields of an instance, by name. *)
Lemma new_fields (c : cls) (args : list pynum) (self : object) :
  new c args = Ok self ->
  ob_type self = c /\
  exists action duration weight,
    args !! 0%nat = Some action /\ args !! 1%nat = Some duration /\
    args !! 2%nat = Some weight /\
    ob_dict self !! "action" = Some action /\
    ob_dict self !! "duration" = Some duration /\
    ob_dict self !! "weight" = Some weight /\
    (c = SportsWalking ->
       exists height, args !! 3%nat = Some height /\
                      ob_dict self !! "height" = Some height) /\
    (c = Swimming ->
       exists length_pool count_pool,
         args !! 3%nat = Some length_pool /\
         args !! 4%nat = Some count_pool /\
         ob_dict self !! "length_pool" = Some length_pool /\
         ob_dict self !! "count_pool" = Some count_pool).
Proof.
  intros (Hc & Hlen & Hat)%new_attrs. split; [exact Hc|].
  destruct args as [|a [|d [|w args]]]; try (destruct c; discriminate Hlen).
  exists a, d, w. do 3 (split; [reflexivity|]).
  split; [apply (Hat 0%nat); destruct c; reflexivity|].
  split; [apply (Hat 1%nat); destruct c; reflexivity|].
  split; [apply (Hat 2%nat); destruct c; reflexivity|].
  split; intros ->.
  - destruct args as [|h args]; [discriminate Hlen|].
    exists h. split; [reflexivity|]. exact (Hat 3%nat "height" eq_refl).
  - destruct args as [|l [|n args]]; try discriminate Hlen.
    exists l, n. do 2 (split; [reflexivity|]).
    split; [exact (Hat 3%nat "length_pool" eq_refl)
           | exact (Hat 4%nat "count_pool" eq_refl)].
Qed.

(** The mean speed of any instance ends in a true division by the
    duration. *)
Lemma get_mean_speed_run (c : cls) (args : list pynum) (self : object)
    (duration : pynum) :
  new c args = Ok self ->
  args !! 1%nat = Some duration ->
  exists numerator : result pynum,
    fst (get_mean_speed self) = (b ← numerator; py_truediv b duration) /\
    (forall b, numerator = Ok b -> is_float b) /\
    (forall e, numerator = Raise e -> arith_error e) /\
    (Forall is_float args -> exists b, numerator = Ok b).
Proof.
  intros (Hc & a & d & w & Ha & Hd & Hw & Hsa & Hsd & Hsw & _ & Hswim)%new_fields
         Hdur.
  rewrite Hd in Hdur. injection Hdur as ->.
  destruct (decide (c = Swimming)) as [->|Hne].
  - destruct (Hswim eq_refl) as (l & n & Hl & Hn & Hsl & Hsn).
    exists (a ← py_mul l n; py_truediv a (PyInt 1000)).
    rewrite (swimming_get_mean_speed self duration l n Hc Hsd Hsl Hsn).
    split; [destruct (py_mul l n); reflexivity|]. split; [|split].
    + intros b. apply bind_Ok_inv. intros p _ H. is_float_step.
    + intros e. apply bind_Raise_inv;
        [apply py_mul_error | intros p _; apply py_truediv_error].
    + intros Hfl.
      assert (Hfl_l : is_float l)
        by (eapply Forall_lookup_1 in Hl; eauto).
      assert (Hfl_n : is_float n)
        by (eapply Forall_lookup_1 in Hn; eauto).
      destruct Hfl_l as [x ->], Hfl_n as [y ->].
      eexists. rewrite py_mul_float_r. unfold PyFloat.to_float at 1.
      unfold mbind at 1 2, result_bind at 1 2.
      rewrite py_truediv_float_l, to_float_1000. reflexivity.
  - exists (fst (get_distance self)).
    rewrite (get_mean_speed_base self duration) by congruence.
    rewrite (get_distance_run self a Hsa).
    split; [reflexivity|]. split; [|split].
    + intros b. apply bind_Ok_inv. intros x _ [= <-]. eexists. reflexivity.
    + intros e. apply bind_Raise_inv; [apply to_float_error | discriminate].
    + intros Hfl.
      assert (Hfl_a : is_float a)
        by (eapply Forall_lookup_1 in Ha; eauto).
      destruct Hfl_a as [x ->]. eexists. reflexivity.
Qed.

Lemma get_spent_calories_run (c : cls) (args : list pynum) (self : object) :
  new c args = Ok self ->
  c <> Training ->
  exists calories : pynum -> result pynum,
    fst (get_spent_calories self) =
      (mean_speed ← fst (get_mean_speed self); calories mean_speed) /\
    (forall ms v, calories ms = Ok v -> is_float v) /\
    (forall ms e, calories ms = Raise e -> arith_error e).
Proof.
  intros (Hc & a & d & w & _ & _ & _ & _ & Hsd & Hsw & Hwalk & _)%new_fields
         Hbase.
  destruct c; [congruence | | |].
  - exists (fun ms => running_calories ms w d).
    split; [apply running_get_spent_calories; assumption|]. split.
    + intros ms v. apply running_calories_is_float.
    + intros ms e. unfold running_calories.
      repeat (apply bind_Raise_inv; [eauto with implemented | intros ? ?]).
      eauto with implemented.
  - destruct (Hwalk eq_refl) as (h & _ & Hsh).
    exists (fun ms => walking_calories py_floordiv ms w h d).
    split; [apply walking_get_spent_calories; assumption|]. split.
    + intros ms v. apply walking_calories_is_float.
    + intros ms e. unfold walking_calories.
      repeat (apply bind_Raise_inv; [eauto with implemented | intros ? ?]).
      eauto with implemented.
  - exists (fun ms => swimming_calories ms w).
    split; [apply swimming_get_spent_calories; assumption|]. split.
    + intros ms v. apply swimming_calories_is_float.
    + intros ms e. unfold swimming_calories.
      repeat (apply bind_Raise_inv; [eauto with implemented | intros ? ?]).
      eauto with implemented.
Qed.

Lemma methods_return_floats (c : cls) (args : list pynum) (self : object) :
  new c args = Ok self ->
  (forall v, fst (get_distance self) = Ok v -> is_float v) /\
  (forall v, fst (get_mean_speed self) = Ok v -> is_float v) /\
  (forall v, fst (get_spent_calories self) = Ok v -> is_float v).
Proof.
  intros H.
  pose proof H as (Hc & a & d & w & _ & Hd & _ & Hsa & _)%new_fields.
  split; [|split].
  - intros v. rewrite (get_distance_run self a Hsa).
    apply bind_Ok_inv. intros x _ [= <-]. eexists. reflexivity.
  - intros v. destruct (get_mean_speed_run c args self d H Hd)
      as (numerator & -> & _).
    apply bind_Ok_inv. intros b _. apply py_truediv_is_float.
  - intros v. destruct (decide (c = Training)) as [->|Hbase].
    + rewrite training_get_spent_calories by exact Hc. discriminate.
    + destruct (get_spent_calories_run c args self H Hbase)
        as (calories & -> & Hfl & _).
      apply bind_Ok_inv. intros ms _. apply Hfl.
Qed.

(** X5: whatever mix of [int]s and [float]s an instance was built from,
    the distance, the mean speed and the calories it returns are
    [float]s. *)
Theorem results_are_floats (c : cls) (args : list pynum) (self : object) :
  new c args = Ok self ->
  (forall v, fst (get_distance self) = Ok v -> is_float v) /\
  (forall v, fst (get_mean_speed self) = Ok v -> is_float v) /\
  (forall v, fst (get_spent_calories self) = Ok v -> is_float v).
Proof. apply methods_return_floats. Qed.

Lemma results_are_floats_witness :
  new Running run_sample = Ok run_object /\
  Forall (fun v => exists n, v = PyInt n) run_sample /\
  exists v, fst (get_spent_calories run_object) = Ok v /\ is_float v.
Proof.
  split; [exact new_run_sample|].
  split; [repeat constructor; eexists; reflexivity|].
  exists (PyFloat 699.75).
  assert (H : fst (get_spent_calories run_object) = Ok (PyFloat 699.75))
    by (vm_compute; reflexivity).
  split; [exact H|].
  exact (proj2 (proj2 (results_are_floats Running run_sample run_object
                         new_run_sample)) _ H).
Defined.

(** X6: on an instance of one of the three workouts, nothing raises but
    the arithmetic: the methods and [main] fail with [ZeroDivisionError] or
    [OverflowError] only, never for a missing attribute. *)
Theorem only_arithmetic_errors (c : cls) (args : list pynum) (self : object)
    (e : exn) :
  new c args = Ok self ->
  c <> Training ->
  (fst (get_distance self) = Raise e -> arith_error e) /\
  (fst (get_mean_speed self) = Raise e -> arith_error e) /\
  (fst (get_spent_calories self) = Raise e -> arith_error e) /\
  (fst (show_training_info self) = Raise e -> arith_error e) /\
  (main self = Raise e -> arith_error e).
Proof.
  intros H Hbase.
  pose proof H as (Hc & a & d & w & _ & Hd & _ & Hsa & Hsd & _)%new_fields.
  assert (Hdist : fst (get_distance self) = Raise e -> arith_error e).
  { rewrite (get_distance_run self a Hsa).
    apply bind_Raise_inv; [apply to_float_error | discriminate]. }
  assert (Hspeed : fst (get_mean_speed self) = Raise e -> arith_error e).
  { destruct (get_mean_speed_run c args self d H Hd)
      as (numerator & -> & _ & Herr & _).
    apply bind_Raise_inv; [apply Herr | intros b _; apply py_truediv_error]. }
  assert (Hcal : fst (get_spent_calories self) = Raise e -> arith_error e).
  { destruct (get_spent_calories_run c args self H Hbase)
      as (calories & -> & _ & Herr).
    apply bind_Raise_inv; [exact Hspeed | intros ms _; apply Herr]. }
  assert (Hinfo : fst (show_training_info self) = Raise e -> arith_error e).
  { rewrite (show_training_info_run self d Hsd). unfold report_of.
    apply bind_Raise_inv; [exact Hdist | intros x _].
    apply bind_Raise_inv; [exact Hspeed | intros v _].
    apply bind_Raise_inv; [exact Hcal | discriminate]. }
  repeat (split; [assumption|]).
  unfold main. apply bind_Raise_inv; [exact Hinfo | intros info _].
  unfold get_message, py_format_3f.
  repeat (apply bind_Raise_inv;
          [apply bind_Raise_inv; [apply to_float_error | discriminate]
          | intros ? ?]).
  discriminate.
Qed.

Lemma only_arithmetic_errors_witness :
  new Running still_sample = Ok still_object /\
  main still_object = Raise ZeroDivisionError /\
  arith_error ZeroDivisionError.
Proof.
  split; [exact new_still_sample|].
  assert (H : main still_object = Raise ZeroDivisionError)
    by (vm_compute; reflexivity).
  split; [exact H|].
  refine (proj2 (proj2 (proj2 (proj2
    (only_arithmetic_errors Running still_sample still_object _
       new_still_sample _)))) H).
  discriminate.
Defined.

(** ** Rendering a report *)

Lemma of_int_overflow (n : Z) (e : exn) :
  PyFloat.of_int n = Raise e -> e = OverflowError.
Proof.
  unfold PyFloat.of_int.
  destruct (binary_normalize _ _ _ _ _); intros [= <-]; reflexivity.
Qed.

Lemma is_float_convertible (v : pynum) : is_float v -> convertible v.
Proof. intros [x ->]. exists x. reflexivity. Qed.

Lemma py_format_3f_Ok (v : pynum) :
  (exists s, py_format_3f v = Ok s) <-> convertible v.
Proof.
  unfold py_format_3f, convertible. split.
  - intros [s H]. destruct (PyFloat.to_float v) as [x|]; [eauto|discriminate].
  - intros [x ->]. eexists. reflexivity.
Qed.

Lemma py_format_3f_Raise (v : pynum) (e : exn) :
  py_format_3f v = Raise e -> e = OverflowError.
Proof.
  unfold py_format_3f. apply bind_Raise_inv; [|discriminate].
  destruct v; simpl; [apply of_int_overflow | discriminate].
Qed.

Lemma get_message_Ok (info : InfoMessage) :
  (exists line, get_message info = Ok line) <->
  convertible (duration info) /\ convertible (distance info) /\
  convertible (speed info) /\ convertible (calories info).
Proof.
  unfold get_message. rewrite <- !py_format_3f_Ok. split.
  - intros [line H].
    destruct (py_format_3f (duration info)); [|discriminate].
    destruct (py_format_3f (distance info)); [|discriminate].
    destruct (py_format_3f (speed info)); [|discriminate].
    destruct (py_format_3f (calories info)); [|discriminate].
    eauto 10.
  - intros ([d ->] & [s ->] & [v ->] & [c ->]). eexists. reflexivity.
Qed.

(** X7: [get_message()] returns a line exactly when each of the four
    numbers is a [float] or an [int] within the binary64 range; otherwise it
    raises [OverflowError], and nothing else. *)
Theorem get_message_outcome (info : InfoMessage) :
  ((exists line, get_message info = Ok line) <->
   convertible (duration info) /\ convertible (distance info) /\
   convertible (speed info) /\ convertible (calories info)) /\
  (forall e, get_message info = Raise e -> e = OverflowError).
Proof.
  split; [apply get_message_Ok|]. intros e. unfold get_message.
  repeat (apply bind_Raise_inv; [apply py_format_3f_Raise | intros ? ?]).
  discriminate.
Qed.

(** A mean speed that was returned had a duration it could divide by. *)
Lemma get_mean_speed_Ok_duration (c : cls) (args : list pynum) (self : object)
    (duration v : pynum) :
  new c args = Ok self ->
  args !! 1%nat = Some duration ->
  fst (get_mean_speed self) = Ok v ->
  exists d, PyFloat.to_float duration = Ok d /\ (d =? 0)%float = false.
Proof.
  intros H Hd. destruct (get_mean_speed_run c args self duration H Hd)
    as (numerator & -> & Hfl & _).
  apply bind_Ok_inv. intros b [x ->]%Hfl. rewrite py_truediv_float_l.
  apply bind_Ok_inv. intros d Hconv.
  destruct (d =? 0)%float eqn:Hz; [discriminate|]. eauto.
Qed.

Lemma main_on_report (c : cls) (args : list pynum) (self : object)
    (info : InfoMessage) :
  new c args = Ok self ->
  fst (show_training_info self) = Ok info ->
  exists line, main self = Ok line /\ get_message info = Ok line.
Proof.
  intros H Hinfo.
  pose proof Hinfo as (_ & Hsd & Hdist & Hspeed & Hcal)%show_training_info_Ok.
  pose proof H as (_ & a & d & w & _ & Hd & _ & _ & Hsd' & _)%new_fields.
  rewrite Hsd in Hsd'. injection Hsd' as <-.
  destruct (methods_return_floats c args self H) as (Hf1 & Hf2 & Hf3).
  destruct (get_mean_speed_Ok_duration c args self _ _ H Hd Hspeed)
    as (y & Hy & _).
  destruct (proj2 (get_message_Ok info)) as [line Hline].
  { split; [exists y; exact Hy|].
    repeat split; apply is_float_convertible; eauto. }
  exists line. split; [|exact Hline].
  unfold main. rewrite Hinfo. exact Hline.
Qed.

(** X8: [main] fails only where [show_training_info()] does: once the
    report of an instance is built, rendering it cannot raise, and the line
    printed is the report's message. *)
Theorem main_prints_every_report (c : cls) (args : list pynum)
    (self : object) :
  new c args = Ok self ->
  (forall info, fst (show_training_info self) = Ok info ->
     exists line, main self = Ok line /\ get_message info = Ok line) /\
  (forall e, fst (show_training_info self) = Raise e -> main self = Raise e) /\
  (forall e, main self = Raise e -> fst (show_training_info self) = Raise e).
Proof.
  intros H. split; [|split].
  - intros info. apply (main_on_report c args self info H).
  - intros e He. unfold main. rewrite He. reflexivity.
  - intros e He.
    destruct (fst (show_training_info self)) as [info|e'] eqn:Hinfo.
    + destruct (main_on_report c args self info H Hinfo) as (line & Hm & _).
      congruence.
    + unfold main in He. rewrite Hinfo in He. injection He as ->. reflexivity.
Qed.

Lemma main_prints_every_report_witness :
  new Swimming swim_sample = Ok swim_object /\
  fst (show_training_info swim_object) = Ok swim_info /\
  exists line, main swim_object = Ok line /\ get_message swim_info = Ok line.
Proof.
  split; [exact new_swim_sample|]. split; [exact show_swim_sample|].
  exact (proj1 (main_prints_every_report Swimming swim_sample swim_object
                  new_swim_sample) swim_info show_swim_sample).
Defined.

(** ** A workout of no duration *)

Lemma zero_duration_speed (c : cls) (args : list pynum) (self : object)
    (duration : pynum) :
  new c args = Ok self ->
  args !! 1%nat = Some duration ->
  is_zero_number duration ->
  (exists e, fst (get_mean_speed self) = Raise e /\ arith_error e) /\
  (Forall is_float args -> fst (get_mean_speed self) = Raise ZeroDivisionError).
Proof.
  intros H Hd (z & Hz & Hzero).
  destruct (get_mean_speed_run c args self duration H Hd)
    as (numerator & -> & Hfl & Herr & Hfloats).
  assert (Hdiv : forall b, numerator = Ok b ->
            py_truediv b duration = Raise ZeroDivisionError).
  { intros b [x ->]%Hfl. rewrite py_truediv_float_l, Hz. simpl.
    now rewrite Hzero. }
  split.
  - destruct numerator as [b|e] eqn:Hn; simpl.
    + exists ZeroDivisionError. split; [now apply Hdiv | left; reflexivity].
    + exists e. split; [reflexivity | now apply Herr].
  - intros [b ->]%Hfloats. simpl. now apply Hdiv.
Qed.

(** X9: with a duration of zero (the [int] 0 or a [float] zero) no class
    produces a mean speed or a report: [get_mean_speed()],
    [show_training_info()] and [main] raise [ZeroDivisionError], or the
    [OverflowError] of an earlier conversion; on [float] arguments it is
    [ZeroDivisionError]. *)
Theorem zero_duration_raises (c : cls) (args : list pynum) (self : object)
    (duration : pynum) :
  new c args = Ok self ->
  args !! 1%nat = Some duration ->
  is_zero_number duration ->
  (exists e, fst (get_mean_speed self) = Raise e /\ arith_error e) /\
  (exists e, fst (show_training_info self) = Raise e /\ arith_error e) /\
  (exists e, main self = Raise e /\ arith_error e) /\
  (Forall is_float args ->
     fst (get_mean_speed self) = Raise ZeroDivisionError /\
     fst (show_training_info self) = Raise ZeroDivisionError /\
     main self = Raise ZeroDivisionError).
Proof.
  intros H Hd Hzero.
  destruct (zero_duration_speed c args self duration H Hd Hzero)
    as ((e & He & Harith) & Hfloat).
  pose proof H as (_ & a & d & w & Ha & Hd' & _ & Hsa & Hsd & _)%new_fields.
  rewrite Hd in Hd'. injection Hd' as <-.
  assert (Hinfo : fst (show_training_info self) =
            (distance ← fst (get_distance self); Raise e)).
  { rewrite (show_training_info_run self duration Hsd). unfold report_of.
    rewrite He. destruct (fst (get_distance self)); reflexivity. }
  assert (Hdist : forall e', fst (get_distance self) = Raise e' ->
                             arith_error e').
  { intros e'. rewrite (get_distance_run self a Hsa).
    apply bind_Raise_inv; [apply to_float_error | discriminate]. }
  assert (Hraise : exists e', fst (show_training_info self) = Raise e'
                              /\ arith_error e').
  { rewrite Hinfo. destruct (fst (get_distance self)) as [x|e'] eqn:Hx; simpl.
    - eauto.
    - exists e'. split; [reflexivity | now apply Hdist]. }
  split; [eauto|]. split; [exact Hraise|]. split.
  - destruct Hraise as (e' & He' & Harith'). exists e'.
    split; [|exact Harith']. unfold main. rewrite He'. reflexivity.
  - intros Hfl. specialize (Hfloat Hfl). rewrite He in Hfloat.
    injection Hfloat as ->.
    assert (Hshow : fst (show_training_info self) = Raise ZeroDivisionError).
    { rewrite Hinfo, (get_distance_run self a Hsa).
      destruct (Forall_lookup_1 _ _ _ _ Hfl Ha) as [x ->]. reflexivity. }
    split; [exact He|]. split; [exact Hshow|].
    unfold main. rewrite Hshow. reflexivity.
Qed.

Lemma zero_duration_raises_witness :
  new Running still_sample = Ok still_object /\
  (exists e, main still_object = Raise e /\ arith_error e).
Proof.
  split; [exact new_still_sample|].
  refine (proj1 (proj2 (proj2
    (zero_duration_raises Running still_sample still_object (PyInt 0)
       new_still_sample eq_refl _)))).
  exists 0%float. split; vm_compute; reflexivity.
Defined.

(** ** Strokes of a swim *)

(** X10: two swims that differ only in [action] have the same mean speed
    and the same calories, and their reports agree on everything but the
    distance. *)
Theorem swimming_action_only_distance
    (a a' d w l n : pynum)
    (self self' : object) :
  new Swimming [a; d; w; l; n] = Ok self ->
  new Swimming [a'; d; w; l; n] = Ok self' ->
  fst (get_mean_speed self') = fst (get_mean_speed self) /\
  fst (get_spent_calories self') = fst (get_spent_calories self) /\
  forall info info',
    fst (show_training_info self) = Ok info ->
    fst (show_training_info self') = Ok info' ->
    training_type info' = training_type info /\
    duration info' = duration info /\
    speed info' = speed info /\
    calories info' = calories info.
Proof.
  intros (Hc & _ & Hat)%new_attrs (Hc' & _ & Hat')%new_attrs.
  assert (Hspeed : fst (get_mean_speed self') = fst (get_mean_speed self)).
  { rewrite (swimming_get_mean_speed self d l n Hc
               (Hat 1%nat "duration" eq_refl)
               (Hat 3%nat "length_pool" eq_refl)
               (Hat 4%nat "count_pool" eq_refl)).
    apply (swimming_get_mean_speed self' d l n Hc'
             (Hat' 1%nat "duration" eq_refl)
             (Hat' 3%nat "length_pool" eq_refl)
             (Hat' 4%nat "count_pool" eq_refl)). }
  assert (Hcal : fst (get_spent_calories self')
                 = fst (get_spent_calories self)).
  { rewrite (swimming_get_spent_calories self w Hc
               (Hat 2%nat "weight" eq_refl)).
    rewrite (swimming_get_spent_calories self' w Hc'
               (Hat' 2%nat "weight" eq_refl)).
    now rewrite Hspeed. }
  split; [exact Hspeed|]. split; [exact Hcal|].
  intros info info' (Hn & Hd & _ & Hv & Hk)%show_training_info_Ok
                    (Hn' & Hd' & _ & Hv' & Hk')%show_training_info_Ok.
  rewrite Hn, Hn', Hc, Hc'. split; [reflexivity|].
  rewrite (Hat 1%nat "duration" eq_refl) in Hd.
  rewrite (Hat' 1%nat "duration" eq_refl) in Hd'. simpl in Hd, Hd'.
  split; [congruence|]. split; congruence.
Qed.

Lemma swimming_action_only_distance_witness :
  new Swimming swim_sample = Ok swim_object /\
  fst (get_spent_calories
         (Object Swimming
            (list_to_map (zip (fields Swimming)
               [PyInt 5; PyInt 1; PyInt 80; PyInt 25; PyInt 40]))))
    = fst (get_spent_calories swim_object).
Proof.
  split; [exact new_swim_sample|].
  refine (proj1 (proj2 (swimming_action_only_distance
    (PyInt 720) (PyInt 5) (PyInt 1) (PyInt 80) (PyInt 25) (PyInt 40)
    swim_object _ new_swim_sample _))).
  vm_compute. reflexivity.
Defined.

(** ** A walker of no height *)

(** X11: for a SportsWalking instance whose height is zero,
    [get_spent_calories()] raises [ZeroDivisionError] as soon as the mean
    speed and its square can be computed and the weight converted. *)
Theorem walking_zero_height (args : list pynum) (self : object)
    (height weight mean_speed square : pynum) :
  new SportsWalking args = Ok self ->
  args !! 2%nat = Some weight ->
  args !! 3%nat = Some height ->
  is_zero_number height ->
  convertible weight ->
  fst (get_mean_speed self) = Ok mean_speed ->
  py_pow mean_speed 2 = Ok square ->
  fst (get_spent_calories self) = Raise ZeroDivisionError.
Proof.
  intros H Hw Hh (z & Hz & Hzero) [x Hx] Hspeed Hsq.
  pose proof H as (Hc & Hlen & Hat)%new_attrs.
  destruct args as [|a [|d [|w [|h [|k args]]]]]; try discriminate Hlen.
  injection Hw as ->. injection Hh as ->.
  rewrite (walking_get_spent_calories self d weight height Hc
             (Hat 1%nat "duration" eq_refl) (Hat 2%nat "weight" eq_refl)
             (Hat 3%nat "height" eq_refl)).
  destruct (methods_return_floats SportsWalking _ self H) as (_ & Hfl & _).
  destruct (Hfl _ Hspeed) as [v ->].
  assert (E1 : py_mul (PyFloat 0.035) weight = Ok (PyFloat (0.035 * x))).
  { unfold py_mul. rewrite py_arith_float_l, Hx. reflexivity. }
  assert (E2 : py_floordiv square height = Raise ZeroDivisionError).
  { simpl in Hsq. destruct (PyFloat.pow v 2) as [p|]; [|discriminate].
    injection Hsq as <-. rewrite py_floordiv_float_l, Hz. simpl.
    now rewrite Hzero. }
  rewrite Hspeed. unfold walking_calories. simpl_run.
  rewrite E1. simpl_run. rewrite Hsq. simpl_run. rewrite E2. reflexivity.
Qed.

Lemma walking_zero_height_witness :
  new SportsWalking flat_sample = Ok flat_object /\
  fst (get_spent_calories flat_object) = Raise ZeroDivisionError.
Proof.
  assert (H : new SportsWalking flat_sample = Ok flat_object)
    by (vm_compute; reflexivity).
  split; [exact H|].
  apply (walking_zero_height flat_sample flat_object (PyInt 0) (PyInt 75)
           (PyFloat 5.85) (PyFloat 34.2225) H eq_refl eq_refl).
  - exists 0%float. split; vm_compute; reflexivity.
  - exists 75%float. vm_compute. reflexivity.
  - vm_compute. reflexivity.
  - vm_compute. reflexivity.
Defined.

(** ** Workouts given in [float]s *)

(** X12: a run or a swim whose arguments are all [float]s, with a duration
    that is not zero, never raises: mean speed and calories are the IEEE
    expressions below (infinities and NaN included), and [main] prints a
    line. *)
Theorem float_workouts_never_raise (a d w l n : float) (self : object) :
  (d =? 0)%float = false ->
  (new Running [PyFloat a; PyFloat d; PyFloat w] = Ok self ->
   fst (get_mean_speed self) = Ok (PyFloat (a * 0.65 / 1000 / d)) /\
   fst (get_spent_calories self) =
     Ok (PyFloat ((18 * (a * 0.65 / 1000 / d) - 20) * w / 1000 * (d * 60))) /\
   exists line, main self = Ok line) /\
  (new Swimming [PyFloat a; PyFloat d; PyFloat w; PyFloat l; PyFloat n]
     = Ok self ->
   fst (get_mean_speed self) = Ok (PyFloat (l * n / 1000 / d)) /\
   fst (get_spent_calories self) =
     Ok (PyFloat ((l * n / 1000 / d + 1.1) * 2 * w)) /\
   exists line, main self = Ok line).
Proof.
  intros Hd. split; intros H.
  - pose proof H as (Hc & _ & Hat)%new_attrs.
    pose proof (Hat 0%nat "action" eq_refl) as Ha.
    pose proof (Hat 1%nat "duration" eq_refl) as Hdur.
    pose proof (Hat 2%nat "weight" eq_refl) as Hw. simpl in Ha, Hdur, Hw.
    assert (Hdist : fst (get_distance self) = Ok (PyFloat (a * 0.65 / 1000))).
    { rewrite (get_distance_run self _ Ha), Hc. reflexivity. }
    assert (Hspeed : fst (get_mean_speed self)
                     = Ok (PyFloat (a * 0.65 / 1000 / d))).
    { rewrite (get_mean_speed_base self _) by (eauto; congruence).
      rewrite Hdist. unfold mbind, result_bind.
      rewrite py_truediv_float_l. simpl. now rewrite Hd. }
    assert (Hcal : fst (get_spent_calories self) =
      Ok (PyFloat ((18 * (a * 0.65 / 1000 / d) - 20) * w / 1000 * (d * 60)))).
    { rewrite (running_get_spent_calories self _ _ Hc Hdur Hw), Hspeed.
      vm_compute. reflexivity. }
    split; [exact Hspeed|]. split; [exact Hcal|].
    assert (Hinfo : exists info, fst (show_training_info self) = Ok info).
    { rewrite (show_training_info_run self _ Hdur). unfold report_of.
      rewrite Hdist, Hspeed, Hcal. eexists. reflexivity. }
    destruct Hinfo as [info Hinfo].
    destruct (main_on_report _ _ _ info H Hinfo) as (line & Hline & _). eauto.
  - pose proof H as (Hc & _ & Hat)%new_attrs.
    pose proof (Hat 0%nat "action" eq_refl) as Ha.
    pose proof (Hat 1%nat "duration" eq_refl) as Hdur.
    pose proof (Hat 2%nat "weight" eq_refl) as Hw.
    pose proof (Hat 3%nat "length_pool" eq_refl) as Hl.
    pose proof (Hat 4%nat "count_pool" eq_refl) as Hn.
    simpl in Ha, Hdur, Hw, Hl, Hn.
    assert (Hdist : fst (get_distance self) = Ok (PyFloat (a * 1.38 / 1000))).
    { rewrite (get_distance_run self _ Ha), Hc. reflexivity. }
    assert (Hspeed : fst (get_mean_speed self)
                     = Ok (PyFloat (l * n / 1000 / d))).
    { rewrite (swimming_get_mean_speed self _ _ _ Hc Hdur Hl Hn).
      vm_compute. rewrite Hd. reflexivity. }
    assert (Hcal : fst (get_spent_calories self) =
      Ok (PyFloat ((l * n / 1000 / d + 1.1) * 2 * w))).
    { rewrite (swimming_get_spent_calories self _ Hc Hw), Hspeed.
      vm_compute. reflexivity. }
    split; [exact Hspeed|]. split; [exact Hcal|].
    assert (Hinfo : exists info, fst (show_training_info self) = Ok info).
    { rewrite (show_training_info_run self _ Hdur). unfold report_of.
      rewrite Hdist, Hspeed, Hcal. eexists. reflexivity. }
    destruct Hinfo as [info Hinfo].
    destruct (main_on_report _ _ _ info H Hinfo) as (line & Hline & _). eauto.
Qed.

Lemma float_workouts_never_raise_witness :
  new Running [PyFloat 15000; PyFloat 1.5; PyFloat 75.5] = Ok float_run_object /\
  fst (get_spent_calories float_run_object) = Ok (PyFloat 659.115).
Proof.
  assert (H : new Running [PyFloat 15000; PyFloat 1.5; PyFloat 75.5]
              = Ok float_run_object) by (vm_compute; reflexivity).
  split; [exact H|].
  destruct (proj1 (float_workouts_never_raise 15000 1.5 75.5 0 0
                     float_run_object eq_refl) H) as (_ & -> & _).
  vm_compute. reflexivity.
Defined.

(** ** The loop of the script *)

Lemma script_cons (package : string * list pynum) ps :
  script (package :: ps) =
    match print_package package with
    | Ok line => (line :: fst (script ps), snd (script ps))
    | Raise e => ([], Some e)
    end.
Proof. simpl. destruct (print_package package), (script ps); reflexivity. Qed.

(** X13: the script prints the reports of the packages in order, one line
    each, up to the first package that raises; the lines before it stay
    printed, the exception is that package's, and the packages after it are
    not looked at. *)
Theorem script_prints_until_first_error
    (ps : list (string * list pynum)) (lines : list string) (r : option exn) :
  script ps = (lines, r) ->
  (forall (i : nat) (line : string),
     lines !! i = Some line ->
     exists package, ps !! i = Some package /\ print_package package = Ok line) /\
  match r with
  | None => length lines = length ps
  | Some e =>
      exists package,
        ps !! length lines = Some package /\ print_package package = Raise e
  end.
Proof.
  revert lines r. induction ps as [|package ps IH]; intros lines r.
  - intros [= <- <-]. split; [|reflexivity]. intros i line. discriminate.
  - rewrite script_cons.
    destruct (print_package package) as [line0|e0] eqn:Hp.
    + intros [= <- <-].
      destruct (IH (fst (script ps)) (snd (script ps)))
        as [Hlines Hend]; [apply surjective_pairing|].
      split.
      * intros [|i] line; simpl.
        -- intros [= <-]. eauto.
        -- apply Hlines.
      * destruct (snd (script ps)); simpl; [exact Hend | now rewrite Hend].
    + intros [= <- <-]. split; [intros i line; discriminate|].
      exists package. split; [reflexivity | exact Hp].
Qed.

Lemma script_prints_until_first_error_witness :
  script [("RUN", run_sample); ("XYZ", swim_sample); ("SWM", swim_sample)] =
    (["Тип тренировки: Running; Длительность: 1.000 ч.; Дистанция: 9.750 км; Ср. скорость: 9.750 км/ч; Потрачено ккал: 699.750."],
     Some (ValueError "Не допустимое значение workout_type: XYZ")) /\
  exists package,
    [("RUN", run_sample); ("XYZ", swim_sample); ("SWM", swim_sample)] !! 1%nat
      = Some package /\
    print_package package =
      Raise (ValueError "Не допустимое значение workout_type: XYZ").
Proof.
  assert (H : script [("RUN", run_sample); ("XYZ", swim_sample);
                      ("SWM", swim_sample)] =
    (["Тип тренировки: Running; Длительность: 1.000 ч.; Дистанция: 9.750 км; Ср. скорость: 9.750 км/ч; Потрачено ккал: 699.750."],
     Some (ValueError "Не допустимое значение workout_type: XYZ")))
    by (vm_compute; reflexivity).
  split; [exact H|].
  exact (proj2 (script_prints_until_first_error _ _ _ H)).
Defined.

(** The script ends without an exception exactly when [run] returns, and
    then with the same lines. *)
Lemma run_script (ps : list (string * list pynum)) (lines : list string) :
  run ps = Ok lines <-> script ps = (lines, None).
Proof.
  revert lines. induction ps as [|[workout_type data] ps IH]; intros lines.
  - simpl. split; intros [= <-]; reflexivity.
  - rewrite script_cons. unfold print_package. simpl.
    destruct (read_package workout_type data) as [training|e]; simpl;
      [|split; discriminate].
    destruct (main training) as [line|e]; simpl; [|split; discriminate].
    destruct (run ps) as [lines'|e] eqn:Hrun; simpl.
    + pose proof (proj1 (IH lines') eq_refl) as ->. simpl.
      split; intros [= <-]; reflexivity.
    + split; [discriminate|]. intros [= <- Hnone].
      assert (Hs : script ps = (fst (script ps), None))
        by (rewrite <- Hnone; apply surjective_pairing).
      apply IH in Hs. discriminate.
Qed.
